(** * Interaction state machine of the chess game front end

    Embedding of the click / move / undo logic of
      - [src/src/App.tsx]                (stand-alone application),
      - [src/src/components/ChessBoard.tsx] (board component with hints),
      - the application shell that hosts [ChessBoard] and offers undo.

    The rules of chess are not part of the repository: both applications
    call the chess.js library.  The library is taken as a parameter, the
    class [RulesEngine]; the mutable [Chess] object built on top of it is
    modelled explicitly, because the applications rebuild it from its FEN
    after every move. *)

From Stdlib Require Import List String Ascii ZArith Bool Lia DecimalString.
Import ListNotations.

(** ** chess.js vocabulary *)

(** chess.js squares are the strings ["a1"] .. ["h8"]. *)
Definition Square := string.

Inductive Color := White | Black.

Inductive PieceSymbol := Pawn | Knight | Bishop | Rook | Queen | King.

Record Piece := { piece_type : PieceSymbol; piece_color : Color }.

(** The object literal [{ from, to, promotion }] handed to [game.move]. *)
Record MoveRequest :=
  { req_from : Square; req_to : Square; req_promotion : option PieceSymbol }.

(** The verbose move object chess.js returns; only the fields the
    applications read are kept. *)
Record Move :=
  { move_from : Square; move_to : Square;
    move_promotion : option PieceSymbol; move_san : string }.

Definition Color_eqb (c d : Color) : bool :=
  match c, d with
  | White, White | Black, Black => true
  | _, _ => false
  end.

Definition PieceSymbol_eqb (s t : PieceSymbol) : bool :=
  match s, t with
  | Pawn, Pawn | Knight, Knight | Bishop, Bishop
  | Rook, Rook | Queen, Queen | King, King => true
  | _, _ => false
  end.

(** [a === b] on [Square | null]. *)
Definition same_square (a : option Square) (s : Square) : bool :=
  match a with
  | Some t => String.eqb t s
  | None => false
  end.

(** [Array.prototype.includes] on an array of squares. *)
Definition includes (l : list Square) (s : Square) : bool :=
  existsb (String.eqb s) l.

(** ** The rules engine (chess.js), as a capability interface

    A [Position] is what a FEN string describes: board, side to move,
    castling rights, en-passant square and the two clocks.  [pos_move]
    answers [None] where chess.js throws or returns [null]. *)
Class RulesEngine := {
  Position : Type;
  start_position : Position;
  pos_turn : Position -> Color;
  pos_get : Position -> Square -> option Piece;
  pos_moves : Position -> Square -> list Move;
  pos_move : Position -> MoveRequest -> option (Position * Move);
  pos_inCheck : Position -> bool;
  pos_isCheckmate : Position -> bool;
  pos_isStalemate : Position -> bool;
  pos_isDraw : Position -> bool
}.

(** ** The chess.js [Chess] object

    Besides the position the object keeps the stack [_history] that
    [undo] pops.  The constructor (and [load]) empties the stack, [move]
    pushes on it, and [undo] on an empty stack returns [null] and leaves
    the object as it is.

    No object of either application ever has more than one entry on its
    stack (it is replaced by [new Chess(game.fen())] right after a move),
    so chess.js's repetition counter never reaches three and the draw
    test depends on the position alone. *)
Section ChessObject.
Context {E : RulesEngine}.

Record Chess := { position : Position; history : list Position }.

(** [new Chess()] *)
Definition new_Chess : Chess :=
  {| position := start_position; history := [] |}.

(** [new Chess(fen)] *)
Definition Chess_of_fen (f : Position) : Chess :=
  {| position := f; history := [] |}.

(** [game.fen()]: the position stands for its own serialization. *)
Definition fen (g : Chess) : Position := position g.

(** [game.move(m)]: [None] is the throw (or [null]) of a rejected
    move, which leaves the object untouched. *)
Definition game_move (g : Chess) (m : MoveRequest) : option (Chess * Move) :=
  match pos_move (position g) m with
  | Some (p', result) =>
      Some ({| position := p'; history := position g :: history g |}, result)
  | None => None
  end.

(** [game.undo()]; the returned move (or [null]) is dropped by the
    caller, so only the object is returned. *)
Definition game_undo (g : Chess) : Chess :=
  match history g with
  | [] => g
  | p0 :: h => {| position := p0; history := h |}
  end.

Definition game_turn (g : Chess) : Color := pos_turn (position g).
Definition game_get (g : Chess) (s : Square) : option Piece :=
  pos_get (position g) s.
Definition game_moves (g : Chess) (s : Square) : list Move :=
  pos_moves (position g) s.
Definition game_inCheck (g : Chess) : bool := pos_inCheck (position g).
Definition game_isCheckmate (g : Chess) : bool :=
  pos_isCheckmate (position g).
Definition game_isStalemate (g : Chess) : bool :=
  pos_isStalemate (position g).
Definition game_isDraw (g : Chess) : bool := pos_isDraw (position g).

(** chess.js: [isCheckmate() || isStalemate() || isDraw()]. *)
Definition game_isGameOver (g : Chess) : bool :=
  game_isCheckmate g || game_isStalemate g || game_isDraw g.

(** [piece && piece.color === turn] *)
Definition friendly (piece : option Piece) (turn : Color) : bool :=
  match piece with
  | Some pc => Color_eqb (piece_color pc) turn
  | None => false
  end.

(** [game.moves({ square, verbose: true }).map(m => m.to)] *)
Definition destinations (g : Chess) (s : Square) : list Square :=
  map move_to (game_moves g s).
End ChessObject.

(** ** [src/src/App.tsx]: the stand-alone application *)
Module StandaloneApp.
Section App.
Context {E : RulesEngine}.

(** The four [useState] cells. *)
Record State := {
  game : Chess;
  selectedSquare : option Square;
  lastMove : option (Square * Square);
  moveHistory : list string
}.

Definition initial : State :=
  {| game := new_Chess; selectedSquare := None;
     lastMove := None; moveHistory := [] |}.

Definition setSelectedSquare (st : State) (v : option Square) : State :=
  {| game := game st; selectedSquare := v;
     lastMove := lastMove st; moveHistory := moveHistory st |}.

(** Values derived at render time. *)
Definition turn (st : State) : Color := game_turn (game st).
Definition isCheck (st : State) : bool := game_inCheck (game st).
Definition isGameOver (st : State) : bool := game_isGameOver (game st).

(** [makeMove]: the four setters of the accepted branch are one batch;
    a rejected move (throw caught, or falsy result) returns [false]
    without calling a setter. *)
Definition makeMove (st : State) (move : MoveRequest) : State * bool :=
  match game_move (game st) move with
  | Some (g', result) =>
      ({| game := Chess_of_fen (fen g');
          selectedSquare := None;
          lastMove := Some (req_from move, req_to move);
          moveHistory := moveHistory st ++ [move_san result] |}, true)
  | None => (st, false)
  end.

(** [handleSquareClick]; the second component records the request
    handed to [makeMove], if the click got that far. *)
Definition handleSquareClick (st : State) (square : Square)
  : State * option MoveRequest :=
  if isGameOver st then (st, None)
  else if same_square (selectedSquare st) square then
    (setSelectedSquare st None, None)
  else
    let piece := game_get (game st) square in
    if friendly piece (turn st) then
      (setSelectedSquare st (Some square), None)
    else
      match selectedSquare st with
      | Some sel =>
          let move := {| req_from := sel; req_to := square;
                         req_promotion := Some Queen |} in
          let '(st1, moveSuccessful) := makeMove st move in
          if negb moveSuccessful && friendly piece (turn st) then
            (setSelectedSquare st1 (Some square), Some move)
          else if negb moveSuccessful then
            (setSelectedSquare st1 None, Some move)
          else (st1, Some move)
      | None => (st, None)
      end.

Definition resetGame (st : State) : State :=
  {| game := new_Chess; selectedSquare := None;
     lastMove := None; moveHistory := [] |}.

Definition getValidMoves (st : State) (square : Square) : list Square :=
  destinations (game st) square.

(** The [useMemo] over [selectedSquare] and [game]. *)
Definition validMoves (st : State) : list Square :=
  match selectedSquare st with
  | Some s => getValidMoves st s
  | None => []
  end.

(** What the user can do: click a square, or press "New Game". *)
Inductive Event := Click (s : Square) | NewGame.

Definition step (st : State) (e : Event) : State :=
  match e with
  | Click s => fst (handleSquareClick st s)
  | NewGame => resetGame st
  end.

Definition run (es : list Event) : State := fold_left step es initial.

(** The invariant of the states the user can reach (stated here,
    proved below). *)
Definition reachable_inv (st : State) : Prop :=
  history (game st) = []
  /\ (isGameOver st = true -> selectedSquare st = None)
  /\ (forall s, selectedSquare st = Some s ->
                friendly (game_get (game st) s) (turn st) = true).
End App.
End StandaloneApp.

(** ** [src/src/components/ChessBoard.tsx]: the board component *)
Module ChessBoard.
Section Board.
Context {E : RulesEngine}.

(** The component's own two [useState] cells. *)
Record State := {
  selectedSquare : option Square;
  hintSquares : list Square
}.

Definition initial : State :=
  {| selectedSquare := None; hintSquares := [] |}.

(** [handleSquareClick] under the prop [game]; the second component
    is the argument of the call to the prop [onMove], if there is one. *)
Definition handleSquareClick (game : Chess) (st : State) (square : Square)
  : State * option MoveRequest :=
  if same_square (selectedSquare st) square then
    ({| selectedSquare := None; hintSquares := [] |}, None)
  else
    let piece := game_get game square in
    if friendly piece (game_turn game) then
      let moves := game_moves game square in
      ({| selectedSquare := Some square;
          hintSquares := map move_to moves |}, None)
    else
      match selectedSquare st with
      | Some sel =>
          if includes (hintSquares st) square then
            ({| selectedSquare := None; hintSquares := [] |},
             Some {| req_from := sel; req_to := square;
                     req_promotion := Some Queen |})
          else ({| selectedSquare := None; hintSquares := [] |}, None)
      | None => ({| selectedSquare := None; hintSquares := [] |}, None)
      end.
End Board.
End ChessBoard.

(** ** The application shell that hosts [ChessBoard] and offers undo *)
Module BoardApp.
Section App.
Context {E : RulesEngine}.
Local Open Scope string_scope.

Record State := {
  game : Chess;
  moveHistory : list Move;
  status : string;
  gameEnded : bool
}.

Definition initial : State :=
  {| game := new_Chess; moveHistory := [];
     status := "White to move"; gameEnded := false |}.

(** [updateStatus] reads the [Chess] object [g] its closure holds,
    as its caller has just left it, and sets [status] and possibly
    [gameEnded]; there is no [setGameEnded(false)] in it. *)
Definition updateStatus (g : Chess) (st : State) : State :=
  let turn := match game_turn g with White => "White" | Black => "Black" end in
  if game_isCheckmate g then
    {| game := game st; moveHistory := moveHistory st;
       status := "Game Over - Checkmate! "
                 ++ (if String.eqb turn "White" then "Black" else "White")
                 ++ " wins.";
       gameEnded := true |}
  else if game_isDraw g then
    {| game := game st; moveHistory := moveHistory st;
       status := "Game Over - Draw"; gameEnded := true |}
  else
    {| game := game st; moveHistory := moveHistory st;
       status := (turn ++ " to move")
                 ++ (if game_inCheck g then " (Check!)" else "");
       gameEnded := gameEnded st |}.

(** [makeMove]: returns nothing; a rejected move is swallowed by the
    [catch]. *)
Definition makeMove (st : State) (move : MoveRequest) : State :=
  match game_move (game st) move with
  | Some (g', result) =>
      updateStatus g'
        {| game := Chess_of_fen (fen g');
           moveHistory := (moveHistory st ++ [result])%list;
           status := status st; gameEnded := gameEnded st |}
  | None => st
  end.

Definition resetGame (st : State) : State :=
  {| game := new_Chess; moveHistory := [];
     status := "White to move"; gameEnded := false |}.

(** [undoMove]: [prev.slice(0, -1)] is [removelast]. *)
Definition undoMove (st : State) : State :=
  let g' := game_undo (game st) in
  updateStatus g'
    {| game := Chess_of_fen (fen g');
       moveHistory := removelast (moveHistory st);
       status := status st; gameEnded := gameEnded st |}.

(** The prop [lastMove={moveHistory[moveHistory.length - 1]}]. *)
Definition lastMove (st : State) : option Move :=
  match moveHistory st with
  | [] => None
  | m :: l => Some (last l m)
  end.

(** [disabled={moveHistory.length === 0}] on the undo button. *)
Definition undoDisabled (st : State) : bool :=
  Nat.eqb (List.length (moveHistory st)) 0.

(** The page: the shell's state next to the mounted board's state. *)
Record Page := { app : State; board : ChessBoard.State }.

Definition initialPage : Page :=
  {| app := initial; board := ChessBoard.initial |}.

(** A click on a square runs the board's handler, and [onMove] is the
    shell's [makeMove]. *)
Definition clickSquare (pg : Page) (square : Square) : Page :=
  let '(bd, request) :=
    ChessBoard.handleSquareClick (game (app pg)) (board pg) square in
  match request with
  | Some move => {| app := makeMove (app pg) move; board := bd |}
  | None => {| app := app pg; board := bd |}
  end.

(** A click on the undo button; a disabled button dispatches nothing.
    The boolean tells whether [undoMove] ran. *)
Definition clickUndo (pg : Page) : Page * bool :=
  if undoDisabled (app pg) then (pg, false)
  else ({| app := undoMove (app pg); board := board pg |}, true).

Definition clickNewGame (pg : Page) : Page :=
  {| app := resetGame (app pg); board := board pg |}.

Inductive Event := Click (s : Square) | Undo | NewGame.

Definition step (pg : Page) (e : Event) : Page :=
  match e with
  | Click s => clickSquare pg s
  | Undo => fst (clickUndo pg)
  | NewGame => clickNewGame pg
  end.

Definition run (es : list Event) : Page := fold_left step es initialPage.

(** The invariant of the pages reached without "New Game" (stated
    here, proved below): the shell's object is freshly loaded, and the
    board's selection, if any, is a piece of the side to move whose
    destinations are the stored hints. *)
Definition page_inv (pg : Page) : Prop :=
  history (game (app pg)) = []
  /\ match ChessBoard.selectedSquare (board pg) with
     | Some s =>
         friendly (game_get (game (app pg)) s) (game_turn (game (app pg))) = true
         /\ ChessBoard.hintSquares (board pg) = destinations (game (app pg)) s
     | None => ChessBoard.hintSquares (board pg) = []
     end.

Definition keeps_game (e : Event) : bool :=
  match e with NewGame => false | _ => true end.
End App.
End BoardApp.

(** ** A rules engine to run the applications on

    An executable instance of [RulesEngine] that plays by the rules of
    chess (piece moves, captures, double pawn step, en passant,
    promotion, castling, check, mate, stalemate, fifty-move rule and
    insufficient material), so that the handlers above can be run on
    real games.  Squares are decoded as chess.js does: file from the
    first character, rank from the second. *)
Module Rules.
Local Open Scope Z_scope.

(** File and rank, both from 0 to 7. *)
Definition Coord := (Z * Z)%type.

Definition on_board (c : Coord) : bool :=
  (0 <=? fst c) && (fst c <=? 7) && (0 <=? snd c) && (snd c <=? 7).

Definition Coord_eqb (c d : Coord) : bool :=
  (fst c =? fst d) && (snd c =? snd d).

Definition shift (c d : Coord) : Coord := (fst c + fst d, snd c + snd d).

Definition coord_of_square (s : Square) : option Coord :=
  match s with
  | String f (String r EmptyString) =>
      let c := (Z.of_nat (nat_of_ascii f) - 97,
                Z.of_nat (nat_of_ascii r) - 49) in
      if on_board c then Some c else None
  | _ => None
  end.

Definition file_name (c : Coord) : string :=
  String (ascii_of_nat (Z.to_nat (fst c + 97))) EmptyString.

Definition rank_name (c : Coord) : string :=
  String (ascii_of_nat (Z.to_nat (snd c + 49))) EmptyString.

Definition square_of_coord (c : Coord) : Square :=
  (file_name c ++ rank_name c)%string.

(** 64 cells, rank by rank from a1. *)
Definition Board := list (option Piece).

Definition cell (c : Coord) : nat := Z.to_nat (8 * snd c + fst c).

Definition piece_at (bd : Board) (c : Coord) : option Piece :=
  if on_board c then nth (cell c) bd None else None.

Fixpoint set_nth (bd : Board) (i : nat) (v : option Piece) : Board :=
  match bd, i with
  | [], _ => []
  | _ :: t, O => v :: t
  | h :: t, S j => h :: set_nth t j v
  end.

Definition set_at (bd : Board) (c : Coord) (v : option Piece) : Board :=
  if on_board c then set_nth bd (cell c) v else bd.

Definition all_coords : list Coord :=
  flat_map (fun y => map (fun x => (x, y)) [0; 1; 2; 3; 4; 5; 6; 7])
           [0; 1; 2; 3; 4; 5; 6; 7].

Record Pos := {
  board : Board;
  side : Color;
  castle_wk : bool; castle_wq : bool; castle_bk : bool; castle_bq : bool;
  ep_square : option Coord;
  half_moves : Z;
  move_number : Z
}.

Inductive Flag :=
  Quiet | Capture | BigPawn | EpCapture | KsideCastle | QsideCastle.

Record RawMove := {
  rm_from : Coord; rm_to : Coord; rm_piece : PieceSymbol;
  rm_promotion : option PieceSymbol; rm_flag : Flag
}.

Definition swap_color (c : Color) : Color :=
  match c with White => Black | Black => White end.

Definition rook_dirs : list Coord := [(1, 0); (-1, 0); (0, 1); (0, -1)].
Definition bishop_dirs : list Coord := [(1, 1); (1, -1); (-1, 1); (-1, -1)].
Definition king_steps : list Coord := rook_dirs ++ bishop_dirs.
Definition knight_jumps : list Coord :=
  [(1, 2); (2, 1); (2, -1); (1, -2); (-1, -2); (-2, -1); (-2, 1); (-1, 2)].

Definition is_piece (o : option Piece) (col : Color) (t : PieceSymbol) : bool :=
  match o with
  | Some pc => Color_eqb (piece_color pc) col && PieceSymbol_eqb (piece_type pc) t
  | None => false
  end.

Definition vacant (bd : Board) (c : Coord) : bool :=
  match piece_at bd c with None => true | Some _ => false end.

Fixpoint first_on_ray (bd : Board) (c d : Coord) (fuel : nat) : option Piece :=
  match fuel with
  | O => None
  | S fuel' =>
      let c' := shift c d in
      if on_board c' then
        match piece_at bd c' with
        | Some pc => Some pc
        | None => first_on_ray bd c' d fuel'
        end
      else None
  end.

(** Is square [c] attacked by a piece of colour [by]? *)
Definition attacked (bd : Board) (by_ : Color) (c : Coord) : bool :=
  let dy := match by_ with White => -1 | Black => 1 end in
  existsb (fun dx => is_piece (piece_at bd (shift c (dx, dy))) by_ Pawn) [-1; 1]
  || existsb (fun j => is_piece (piece_at bd (shift c j)) by_ Knight) knight_jumps
  || existsb (fun j => is_piece (piece_at bd (shift c j)) by_ King) king_steps
  || existsb (fun d => let o := first_on_ray bd c d 7 in
                       is_piece o by_ Rook || is_piece o by_ Queen) rook_dirs
  || existsb (fun d => let o := first_on_ray bd c d 7 in
                       is_piece o by_ Bishop || is_piece o by_ Queen) bishop_dirs.

Definition king_coord (bd : Board) (col : Color) : option Coord :=
  find (fun c => is_piece (piece_at bd c) col King) all_coords.

Definition in_check_of (bd : Board) (col : Color) : bool :=
  match king_coord bd col with
  | Some c => attacked bd (swap_color col) c
  | None => false
  end.

Definition raw (c c' : Coord) (t : PieceSymbol) (pr : option PieceSymbol)
           (fl : Flag) : RawMove :=
  {| rm_from := c; rm_to := c'; rm_piece := t; rm_promotion := pr; rm_flag := fl |}.

Fixpoint slide (bd : Board) (us : Color) (t : PieceSymbol) (c0 c d : Coord)
               (fuel : nat) : list RawMove :=
  match fuel with
  | O => []
  | S fuel' =>
      let c' := shift c d in
      if on_board c' then
        match piece_at bd c' with
        | None => raw c0 c' t None Quiet :: slide bd us t c0 c' d fuel'
        | Some pc =>
            if Color_eqb (piece_color pc) us then []
            else [raw c0 c' t None Capture]
        end
      else []
  end.

Definition slides (ps : Pos) (t : PieceSymbol) (c : Coord) (ds : list Coord)
  : list RawMove :=
  flat_map (fun d => slide (board ps) (side ps) t c c d 7) ds.

Definition hops (ps : Pos) (t : PieceSymbol) (c : Coord) (ds : list Coord)
  : list RawMove :=
  flat_map (fun d =>
              let c' := shift c d in
              if on_board c' then
                match piece_at (board ps) c' with
                | None => [raw c c' t None Quiet]
                | Some pc =>
                    if Color_eqb (piece_color pc) (side ps) then []
                    else [raw c c' t None Capture]
                end
              else []) ds.

Definition pawn_to (us : Color) (c c' : Coord) (fl : Flag) : list RawMove :=
  let last_rank := match us with White => 7 | Black => 0 end in
  if snd c' =? last_rank then
    map (fun t => raw c c' Pawn (Some t) fl) [Queen; Rook; Bishop; Knight]
  else [raw c c' Pawn None fl].

Definition pawn_moves (ps : Pos) (c : Coord) : list RawMove :=
  let us := side ps in
  let bd := board ps in
  let dy := match us with White => 1 | Black => -1 end in
  let home := match us with White => 1 | Black => 6 end in
  let one := shift c (0, dy) in
  let two := shift c (0, 2 * dy) in
  let pushes :=
    if on_board one && vacant bd one then
      pawn_to us c one Quiet
      ++ (if (snd c =? home) && vacant bd two
          then [raw c two Pawn None BigPawn] else [])
    else [] in
  let takes :=
    flat_map (fun dx =>
                let t := shift c (dx, dy) in
                if on_board t then
                  match piece_at bd t with
                  | Some pc =>
                      if Color_eqb (piece_color pc) us then []
                      else pawn_to us c t Capture
                  | None =>
                      match ep_square ps with
                      | Some e =>
                          if Coord_eqb e t then [raw c t Pawn None EpCapture]
                          else []
                      | None => []
                      end
                  end
                else []) [-1; 1] in
  pushes ++ takes.

Definition castle_moves (ps : Pos) (c : Coord) : list RawMove :=
  let us := side ps in
  let bd := board ps in
  let y := match us with White => 0 | Black => 7 end in
  let kside := match us with White => castle_wk ps | Black => castle_bk ps end in
  let qside := match us with White => castle_wq ps | Black => castle_bq ps end in
  let free x := vacant bd (x, y) in
  let safe x := negb (attacked bd (swap_color us) (x, y)) in
  (if kside && Coord_eqb c (4, y) && free 5 && free 6
      && safe 4 && safe 5 && safe 6
   then [raw c (6, y) King None KsideCastle] else [])
  ++ (if qside && Coord_eqb c (4, y) && free 1 && free 2 && free 3
         && safe 4 && safe 3 && safe 2
      then [raw c (2, y) King None QsideCastle] else []).

Definition piece_moves (ps : Pos) (c : Coord) (pc : Piece) : list RawMove :=
  match piece_type pc with
  | Pawn => pawn_moves ps c
  | Knight => hops ps Knight c knight_jumps
  | Bishop => slides ps Bishop c bishop_dirs
  | Rook => slides ps Rook c rook_dirs
  | Queen => slides ps Queen c (rook_dirs ++ bishop_dirs)
  | King => hops ps King c king_steps ++ castle_moves ps c
  end.

Definition pseudo_moves (ps : Pos) : list RawMove :=
  flat_map (fun c =>
              match piece_at (board ps) c with
              | Some pc =>
                  if Color_eqb (piece_color pc) (side ps)
                  then piece_moves ps c pc else []
              | None => []
              end) all_coords.

Definition is_capture (m : RawMove) : bool :=
  match rm_flag m with Capture | EpCapture => true | _ => false end.

(** The position after a (pseudo-legal) move. *)
Definition play (ps : Pos) (m : RawMove) : Pos :=
  let us := side ps in
  let y := snd (rm_from m) in
  let moved :=
    {| piece_type := match rm_promotion m with Some t => t | None => rm_piece m end;
       piece_color := us |} in
  let rook := {| piece_type := Rook; piece_color := us |} in
  let bd0 := set_at (board ps) (rm_from m) None in
  let bd1 := match rm_flag m with
             | EpCapture => set_at bd0 (fst (rm_to m), y) None
             | _ => bd0
             end in
  let bd2 := set_at bd1 (rm_to m) (Some moved) in
  let bd3 := match rm_flag m with
             | KsideCastle => set_at (set_at bd2 (7, y) None) (5, y) (Some rook)
             | QsideCastle => set_at (set_at bd2 (0, y) None) (3, y) (Some rook)
             | _ => bd2
             end in
  let touches c := Coord_eqb (rm_from m) c || Coord_eqb (rm_to m) c in
  {| board := bd3;
     side := swap_color us;
     castle_wk := castle_wk ps && negb (touches (4, 0)) && negb (touches (7, 0));
     castle_wq := castle_wq ps && negb (touches (4, 0)) && negb (touches (0, 0));
     castle_bk := castle_bk ps && negb (touches (4, 7)) && negb (touches (7, 7));
     castle_bq := castle_bq ps && negb (touches (4, 7)) && negb (touches (0, 7));
     ep_square := match rm_flag m with
                  | BigPawn => Some (fst (rm_from m), (y + snd (rm_to m)) / 2)
                  | _ => None
                  end;
     half_moves := if PieceSymbol_eqb (rm_piece m) Pawn || is_capture m
                   then 0 else half_moves ps + 1;
     move_number := match us with
                    | Black => move_number ps + 1
                    | White => move_number ps
                    end |}.

Definition legal_moves (ps : Pos) : list RawMove :=
  filter (fun m => negb (in_check_of (board (play ps m)) (side ps)))
         (pseudo_moves ps).

Definition in_check (ps : Pos) : bool := in_check_of (board ps) (side ps).

Definition no_moves (ps : Pos) : bool :=
  match legal_moves ps with [] => true | _ :: _ => false end.

Definition is_checkmate (ps : Pos) : bool := in_check ps && no_moves ps.
Definition is_stalemate (ps : Pos) : bool := negb (in_check ps) && no_moves ps.

Definition count_type (bd : Board) (t : PieceSymbol) : nat :=
  List.length (filter (fun o => match o with
                                | Some pc => PieceSymbol_eqb (piece_type pc) t
                                | None => false
                                end) bd).

Definition count_pieces (bd : Board) : nat :=
  List.length (filter (fun o => match o with Some _ => true | None => false end) bd).

(** Colours (0 or 1) of the squares the bishops stand on. *)
Definition bishop_colors (bd : Board) : list Z :=
  flat_map (fun c => match piece_at bd c with
                     | Some pc =>
                         if PieceSymbol_eqb (piece_type pc) Bishop
                         then [(fst c + snd c) mod 2] else []
                     | None => []
                     end) all_coords.

Definition insufficient_material (ps : Pos) : bool :=
  let bd := board ps in
  let total := count_pieces bd in
  let bishops := count_type bd Bishop in
  let knights := count_type bd Knight in
  if Nat.eqb total 2 then true
  else if Nat.eqb total 3 && (Nat.eqb bishops 1 || Nat.eqb knights 1) then true
  else if Nat.eqb total (bishops + 2) then
    forallb (Z.eqb 0) (bishop_colors bd) || forallb (Z.eqb 1) (bishop_colors bd)
  else false.

(** Fifty-move rule, stalemate or insufficient material.  Repetition
    is left out: it needs the position counts of the [Chess] object,
    which never reach three in these applications. *)
Definition is_draw (ps : Pos) : bool :=
  (100 <=? half_moves ps) || is_stalemate ps || insufficient_material ps.

Definition piece_letter (t : PieceSymbol) : string :=
  match t with
  | Pawn => "" | Knight => "N" | Bishop => "B"
  | Rook => "R" | Queen => "Q" | King => "K"
  end.

Definition disambiguator (legal : list RawMove) (m : RawMove) : string :=
  let others :=
    filter (fun o => PieceSymbol_eqb (rm_piece o) (rm_piece m)
                     && Coord_eqb (rm_to o) (rm_to m)
                     && negb (Coord_eqb (rm_from o) (rm_from m))) legal in
  match others with
  | [] => ""
  | _ :: _ =>
      let same_file := existsb (fun o => fst (rm_from o) =? fst (rm_from m)) others in
      let same_rank := existsb (fun o => snd (rm_from o) =? snd (rm_from m)) others in
      if same_rank && same_file then square_of_coord (rm_from m)
      else if same_file then rank_name (rm_from m)
      else file_name (rm_from m)
  end.

(** Standard algebraic notation of a legal move. *)
Definition san (ps : Pos) (legal : list RawMove) (m : RawMove) : string :=
  let body :=
    match rm_flag m with
    | KsideCastle => "O-O"%string
    | QsideCastle => "O-O-O"%string
    | _ =>
        (match rm_piece m with
         | Pawn => if is_capture m then file_name (rm_from m) else ""
         | t => piece_letter t ++ disambiguator legal m
         end
         ++ (if is_capture m then "x" else "")
         ++ square_of_coord (rm_to m)
         ++ match rm_promotion m with
            | Some t => "=" ++ piece_letter t
            | None => ""
            end)%string
    end in
  let after := play ps m in
  (body ++ (if is_checkmate after then "#"
            else if in_check after then "+" else ""))%string.

Definition pretty (ps : Pos) (legal : list RawMove) (m : RawMove) : Move :=
  {| move_from := square_of_coord (rm_from m);
     move_to := square_of_coord (rm_to m);
     move_promotion := rm_promotion m;
     move_san := san ps legal m |}.

(** [moves({ square, verbose: true })] *)
Definition moves_of (ps : Pos) (s : Square) : list Move :=
  let legal := legal_moves ps in
  match coord_of_square s with
  | Some c => map (pretty ps legal)
                  (filter (fun m => Coord_eqb (rm_from m) c) legal)
  | None => []
  end.

Definition option_symbol_eqb (a b : option PieceSymbol) : bool :=
  match a, b with
  | Some s, Some t => PieceSymbol_eqb s t
  | None, None => true
  | _, _ => false
  end.

(** [move({ from, to, promotion })]: the first legal move with these
    endpoints whose promotion, if it has one, is the requested one. *)
Definition try_move (ps : Pos) (req : MoveRequest) : option (Pos * Move) :=
  let legal := legal_moves ps in
  match find (fun m =>
                String.eqb (req_from req) (square_of_coord (rm_from m))
                && String.eqb (req_to req) (square_of_coord (rm_to m))
                && match rm_promotion m with
                   | None => true
                   | Some t => option_symbol_eqb (req_promotion req) (Some t)
                   end) legal with
  | Some m => Some (play ps m, pretty ps legal m)
  | None => None
  end.

Definition get (ps : Pos) (s : Square) : option Piece :=
  match coord_of_square s with
  | Some c => piece_at (board ps) c
  | None => None
  end.

Definition back_rank (col : Color) : list (option Piece) :=
  map (fun t => Some {| piece_type := t; piece_color := col |})
      [Rook; Knight; Bishop; Queen; King; Bishop; Knight; Rook].

Definition pawn_rank (col : Color) : list (option Piece) :=
  repeat (Some {| piece_type := Pawn; piece_color := col |}) 8.

Definition start : Pos :=
  {| board := back_rank White ++ pawn_rank White ++ repeat None 32
              ++ pawn_rank Black ++ back_rank Black;
     side := White;
     castle_wk := true; castle_wq := true;
     castle_bk := true; castle_bq := true;
     ep_square := None; half_moves := 0; move_number := 1 |}.

#[export] Instance engine : RulesEngine := {|
  Position := Pos;
  start_position := start;
  pos_turn := side;
  pos_get := get;
  pos_moves := moves_of;
  pos_move := try_move;
  pos_inCheck := in_check;
  pos_isCheckmate := is_checkmate;
  pos_isStalemate := is_stalemate;
  pos_isDraw := is_draw
|}.
End Rules.

(** ** Sample games, as the clicks that play them *)
Module Games.
Local Open Scope string_scope.

(** 1. f3 e5 2. g4 Qh4#, each move as a click on the piece and a
    click on the destination. *)
Definition fools_mate : list Square :=
  ["f2"; "f3"; "e7"; "e5"; "g2"; "g4"; "d8"; "h4"].

(** The same game stopped before Black's second move. *)
Definition before_mate : list Square :=
  ["f2"; "f3"; "e7"; "e5"; "g2"; "g4"].

Definition request (a b : Square) : MoveRequest :=
  {| req_from := a; req_to := b; req_promotion := Some Queen |}.

(** The two applications on [Rules.engine], after a run of clicks
    on squares from the initial state. *)
Definition standalone_after (clicks : list Square)
  : @StandaloneApp.State Rules.engine :=
  StandaloneApp.run (map StandaloneApp.Click clicks).

Definition page_after (clicks : list Square) : @BoardApp.Page Rules.engine :=
  BoardApp.run (map BoardApp.Click clicks).

(** Number of games of [n] plies that start in [ps]. *)
Fixpoint perft (n : nat) (ps : Rules.Pos) : Z :=
  match n with
  | O => 1%Z
  | S k => fold_left (fun acc m => (acc + perft k (Rules.play ps m))%Z)
                     (Rules.legal_moves ps) 0%Z
  end.
End Games.

(** ** What the components draw *)

(** JavaScript helpers of the render code. *)
Module Js.
(** [String.fromCharCode(n)], for the codes below 256 that the render
    code asks for. *)
Definition fromCharCode (n : Z) : string :=
  String (ascii_of_nat (Z.to_nat n)) EmptyString.

(** A number turned into a string by [+] or a template literal. *)
Definition number_string (z : Z) : string :=
  NilZero.string_of_int (Z.to_int z).

(** [Array.prototype.map] with the index as second argument. *)
Fixpoint mapi_from {A B : Type} (f : A -> nat -> B) (l : list A) (i : nat)
  : list B :=
  match l with
  | [] => []
  | x :: t => f x i :: mapi_from f t (S i)
  end.

Definition mapi {A B : Type} (f : A -> nat -> B) (l : list A) : list B :=
  mapi_from f l 0.

(** [Math.ceil(n / 2)] on a length. *)
Definition ceil_half (n : nat) : nat := (n + 1) / 2.

(** [toUpperCase] on the ASCII letters. *)
Definition upper_ascii (c : ascii) : ascii :=
  let n := nat_of_ascii c in
  if (97 <=? n)%nat && (n <=? 122)%nat then ascii_of_nat (n - 32) else c.

Fixpoint toUpperCase (s : string) : string :=
  match s with
  | EmptyString => EmptyString
  | String c t => String (upper_ascii c) (toUpperCase t)
  end.

(** chess.js writes colours as ['w'], ['b'] and piece types as ['p'],
    ['n'], ['b'], ['r'], ['q'], ['k']. *)
Definition color_code (c : Color) : string :=
  match c with White => "w" | Black => "b" end.

Definition type_code (t : PieceSymbol) : string :=
  match t with
  | Pawn => "p" | Knight => "n" | Bishop => "b"
  | Rook => "r" | Queen => "q" | King => "k"
  end.

(** The name both components give the cell in row [i], column [j]:
    [String.fromCharCode(97 + j) + (8 - i)]. *)
Definition squareName (i j : nat) : Square :=
  (fromCharCode (97 + Z.of_nat j) ++ number_string (8 - Z.of_nat i))%string.
End Js.

(** *** [ChessBoard.tsx]: cells, highlights, labels and piece icons *)
Module BoardView.
Inductive SquareColor := light | dark.

Record Cell := {
  square : Square;
  piece : option Piece;
  color : SquareColor
}.

(** The body of the inner loop, for one [j]; [rows[i][j]] of a short
    row is [undefined], which draws no piece. *)
Definition cell_at (row : list (option Piece)) (i j : nat) : Cell :=
  {| square := Js.squareName i j;
     piece := match nth_error row j with Some pc => pc | None => None end;
     color := if Nat.eqb ((i + j) mod 2) 0 then light else dark |}.

(** The two nested [for] loops that push onto [b]; [None] is the
    [TypeError] of [rows[i][j]] when [rows[i]] is missing. *)
Fixpoint board_loop (rows : list (list (option Piece))) (is_ : list nat)
         (b : list Cell) : option (list Cell) :=
  match is_ with
  | [] => Some b
  | i :: rest =>
      match nth_error rows i with
      | None => None
      | Some row =>
          board_loop rows rest (b ++ map (cell_at row i) (seq 0 8))
      end
  end.

(** The [useMemo] called [board], from [rows = game.board()]. *)
Definition board (rows : list (list (option Piece))) : option (list Cell) :=
  board_loop rows (seq 0 8) [].

(** [isSelected], [isHint] and [isLastMove] of a cell. *)
Definition isSelected (st : ChessBoard.State) (sq : Square) : bool :=
  same_square (ChessBoard.selectedSquare st) sq.

Definition isHint (st : ChessBoard.State) (sq : Square) : bool :=
  includes (ChessBoard.hintSquares st) sq.

Definition isLastMove (lastMove : option Move) (sq : Square) : bool :=
  match lastMove with
  | Some m => String.eqb (move_from m) sq || String.eqb (move_to m) sq
  | None => false
  end.

(** The rank label: [square[1]], drawn where [square[0] === 'a']. *)
Definition rankLabel (sq : Square) : option ascii :=
  match String.get 0 sq with
  | Some c => if Ascii.eqb c "a" then String.get 1 sq else None
  | None => None
  end.

(** The file label: [square[0]], drawn where [square[1] === '1']. *)
Definition fileLabel (sq : Square) : option ascii :=
  match String.get 1 sq with
  | Some c => if Ascii.eqb c "1" then String.get 0 sq else None
  | None => None
  end.

(** [getPieceIcon(type, color)]; its local [suffix] is never used. *)
Definition getPieceIcon (type color : string) : string :=
  ("https://lichess1.org/assets/piece/cburnett/"
   ++ Js.toUpperCase color ++ Js.toUpperCase type ++ ".svg")%string.

(** The [src] of the image drawn for a piece. *)
Definition icon (pc : Piece) : string :=
  getPieceIcon (Js.type_code (piece_type pc)) (Js.color_code (piece_color pc)).
End BoardView.

(** *** [App.tsx]: cells, piece images and the history list *)
Module StandaloneView.
Section View.
Context {E : RulesEngine}.
Local Open Scope string_scope.

Definition PIECES_SVG : list (string * string) :=
  [ ("wp", "https://upload.wikimedia.org/wikipedia/commons/4/45/Chess_plt45.svg");
    ("wr", "https://upload.wikimedia.org/wikipedia/commons/7/72/Chess_rlt45.svg");
    ("wn", "https://upload.wikimedia.org/wikipedia/commons/7/70/Chess_nlt45.svg");
    ("wb", "https://upload.wikimedia.org/wikipedia/commons/b/b1/Chess_blt45.svg");
    ("wq", "https://upload.wikimedia.org/wikipedia/commons/1/15/Chess_qlt45.svg");
    ("wk", "https://upload.wikimedia.org/wikipedia/commons/4/42/Chess_klt45.svg");
    ("bp", "https://upload.wikimedia.org/wikipedia/commons/c/c7/Chess_pdt45.svg");
    ("br", "https://upload.wikimedia.org/wikipedia/commons/f/ff/Chess_rdt45.svg");
    ("bn", "https://upload.wikimedia.org/wikipedia/commons/e/ef/Chess_ndt45.svg");
    ("bb", "https://upload.wikimedia.org/wikipedia/commons/9/98/Chess_bdt45.svg");
    ("bq", "https://upload.wikimedia.org/wikipedia/commons/4/47/Chess_qdt45.svg");
    ("bk", "https://upload.wikimedia.org/wikipedia/commons/f/f0/Chess_kdt45.svg") ].

(** [PIECES_SVG[key]]; [None] is [undefined]. *)
Definition lookup (key : string) : option string :=
  match find (fun e => String.eqb (fst e) key) PIECES_SVG with
  | Some e => Some (snd e)
  | None => None
  end.

(** [PIECES_SVG[`${piece.color}${piece.type}`]] *)
Definition image (pc : Piece) : option string :=
  lookup (Js.color_code (piece_color pc) ++ Js.type_code (piece_type pc)).

Record CellView := {
  squareName : Square;
  isDark : bool;
  isSelected : bool;
  isValidMove : bool;
  isLastMove : bool;
  piece : option Piece
}.

(** The body of the inner [map], for one piece and its indices. *)
Definition cell_view (st : StandaloneApp.State) (i : nat)
           (pc : option Piece) (j : nat) : CellView :=
  let name := Js.squareName i j in
  {| squareName := name;
     isDark := Nat.eqb ((i + j) mod 2) 1;
     isSelected := same_square (StandaloneApp.selectedSquare st) name;
     isValidMove := includes (StandaloneApp.validMoves st) name;
     isLastMove := match StandaloneApp.lastMove st with
                   | Some (a, b) => String.eqb a name || String.eqb b name
                   | None => false
                   end;
     piece := pc |}.

(** [board.map((row, i) => row.map((piece, j) => ...))], with
    [board = game.board()]. *)
Definition cells (st : StandaloneApp.State) (board : list (list (option Piece)))
  : list (list CellView) :=
  Js.mapi (fun row i => Js.mapi (cell_view st i) row) board.

(** The history list:
    [moveHistory.map((move, i) => (Math.floor(i/2) + 1, move))]. *)
Definition historyEntries (st : StandaloneApp.State) : list (nat * string) :=
  Js.mapi (fun move i => (i / 2 + 1, move)) (StandaloneApp.moveHistory st).
End View.
End StandaloneView.

(** *** The shell: the two-column history panel *)
Module HistoryPanel.
Record Row := {
  number : nat;
  first : option string;
  second : option string
}.

(** One fragment: the move [moveHistory[i * 2]?.san] under the number
    [i + 1], and [moveHistory[i * 2 + 1].san] where that entry
    exists. *)
Definition row (h : list Move) (i : nat) : Row :=
  {| number := i + 1;
     first := option_map move_san (nth_error h (i * 2));
     second := option_map move_san (nth_error h (i * 2 + 1)) |}.

(** [Array.from({ length: Math.ceil(moveHistory.length / 2) }).map(...)] *)
Definition rows (h : list Move) : list Row :=
  map (row h) (seq 0 (Js.ceil_half (List.length h))).

(** The moves a row shows, left to right. *)
Definition shown (r : Row) : list string :=
  match first r with Some a => [a] | None => [] end
  ++ match second r with Some a => [a] | None => [] end.
End HistoryPanel.

(** *** [game.board()] of the engine [Rules.engine] *)
Module RulesBoard.
(** Eight rows from rank 8 down to rank 1, each from file a to file h,
    as chess.js lays them out. *)
Definition board_rows (ps : Rules.Pos) : list (list (option Piece)) :=
  map (fun y => map (fun x => Rules.piece_at (Rules.board ps) (x, y))
                    [0; 1; 2; 3; 4; 5; 6; 7]%Z)
      [7; 6; 5; 4; 3; 2; 1; 0]%Z.
End RulesBoard.

(** *** The squares of the board *)
Module Squares.
Local Open Scope string_scope.

(** The 64 names in reading order, a8 to h8 down to a1 to h1. *)
Definition names : list Square :=
  flat_map (fun r => map (fun f => f ++ r) ["a"; "b"; "c"; "d"; "e"; "f"; "g"; "h"])
           ["8"; "7"; "6"; "5"; "4"; "3"; "2"; "1"].
End Squares.

(** ** Measures and invariants used below *)
Module Measures.
Section Measures.
Context {E : RulesEngine}.

(** Clicks spent so far: two for each recorded move, one for a pending
    selection. *)
Definition standalone_clicks (st : StandaloneApp.State) : nat :=
  2 * List.length (StandaloneApp.moveHistory st)
  + match StandaloneApp.selectedSquare st with Some _ => 1 | None => 0 end.

Definition page_clicks (pg : BoardApp.Page) : nat :=
  2 * List.length (BoardApp.moveHistory (BoardApp.app pg))
  + match ChessBoard.selectedSquare (BoardApp.board pg) with
    | Some _ => 1
    | None => 0
    end.

(** Last move and history go together, and a move joins two different
    squares. *)
Definition standalone_coherent (st : StandaloneApp.State) : Prop :=
  (StandaloneApp.lastMove st = None <-> StandaloneApp.moveHistory st = [])
  /\ (forall a b, StandaloneApp.lastMove st = Some (a, b) -> a <> b).

(** The status line is the one [updateStatus] computes from the game
    the shell holds. *)
Definition status_current (sh : BoardApp.State) : Prop :=
  BoardApp.status sh = BoardApp.status (BoardApp.updateStatus (BoardApp.game sh) sh).

(** The status line announces the end of the game. *)
Definition says_game_over (sh : BoardApp.State) : bool :=
  String.prefix "Game Over" (BoardApp.status sh).
End Measures.
End Measures.

(** ** What the handlers return to their callers *)
Module ShellReturns.
Section Returns.
Context {E : RulesEngine}.

(** The value of a call, as its caller sees it. *)
Inductive Returned := ReturnedBool (b : bool) | ReturnedUndefined.

(** [App.tsx]'s [makeMove] ends every path in [return true] or
    [return false]. *)
Definition standalone_makeMove_returns
           (st : StandaloneApp.State) (move : MoveRequest) : Returned :=
  ReturnedBool (snd (StandaloneApp.makeMove st move)).

(** The shell's [makeMove] has no [return]: after the [if] of an
    accepted move and after the empty [catch] of a rejected one alike,
    control runs off the end of the function. *)
Definition makeMove_returns (st : BoardApp.State) (move : MoveRequest)
  : Returned :=
  match game_move (BoardApp.game st) move with
  | Some _ => ReturnedUndefined
  | None => ReturnedUndefined
  end.

(** [undoMove] has no [return] and no test of the history either. *)
Definition undoMove_returns (st : BoardApp.State) : Returned :=
  ReturnedUndefined.

(** The flag follows the game: it is raised whenever the game the
    shell holds is mate or draw (stated here, proved below for the
    pages the user can reach). *)
Definition flag_current (sh : BoardApp.State) : Prop :=
  game_isCheckmate (BoardApp.game sh) || game_isDraw (BoardApp.game sh) = true ->
  BoardApp.gameEnded sh = true.
End Returns.
End ShellReturns.

(** * Properties *)

(** ** The [Chess] object *)
Section ChessObjectFacts.
Context {E : RulesEngine}.

Lemma game_move_some (g : Chess) (m : MoveRequest) (p' : Position) (r : Move) :
  pos_move (position g) m = Some (p', r) ->
  game_move g m =
    Some ({| position := p'; history := position g :: history g |}, r).
Proof. intros H. unfold game_move. now rewrite H. Qed.

Lemma game_move_none (g : Chess) (m : MoveRequest) :
  pos_move (position g) m = None -> game_move g m = None.
Proof. intros H. unfold game_move. now rewrite H. Qed.

Lemma game_move_inv (g g' : Chess) (m : MoveRequest) (r : Move) :
  game_move g m = Some (g', r) ->
  pos_move (position g) m = Some (fen g', r).
Proof.
  unfold game_move. destruct (pos_move (position g) m) as [[p' r']|];
    [|discriminate].
  intros H. inversion H; subst. reflexivity.
Qed.

(** A freshly loaded object has nothing to undo. *)
Lemma game_undo_fresh (g : Chess) :
  history g = [] -> game_undo g = g.
Proof. intros H. unfold game_undo. now rewrite H. Qed.

Lemma Chess_of_fen_fresh (g : Chess) :
  history g = [] -> Chess_of_fen (fen g) = g.
Proof. destruct g as [p h]. simpl. intros ->. reflexivity. Qed.

Lemma game_over_of_status (g : Chess) :
  game_isCheckmate g = true \/ game_isDraw g = true ->
  game_isGameOver g = true.
Proof.
  unfold game_isGameOver. intros [H|H]; rewrite H;
    [reflexivity | apply orb_true_r].
Qed.

Lemma includes_In (l : list Square) (s : Square) :
  includes l s = true <-> In s l.
Proof.
  unfold includes. rewrite existsb_exists. split.
  - intros (x & Hx & Heq). apply String.eqb_eq in Heq. now subst.
  - intros H. exists s. split; [assumption | apply String.eqb_refl].
Qed.

Lemma same_square_true (a : option Square) (s : Square) :
  same_square a s = true <-> a = Some s.
Proof.
  destruct a as [t|]; simpl.
  - rewrite String.eqb_eq. split; [now intros -> | now intros [= ->]].
  - split; discriminate.
Qed.
End ChessObjectFacts.

(** ** The stand-alone application *)
Section StandaloneFacts.
Context {E : RulesEngine}.
Import StandaloneApp.

Lemma standalone_makeMove_rejected (st : State) (move : MoveRequest) :
  pos_move (position (game st)) move = None ->
  makeMove st move = (st, false).
Proof.
  intros H. unfold makeMove. now rewrite (game_move_none _ _ H).
Qed.

Lemma standalone_makeMove_accepted (st : State) (move : MoveRequest)
      (p' : Position) (r : Move) :
  pos_move (position (game st)) move = Some (p', r) ->
  makeMove st move =
    ({| game := Chess_of_fen p'; selectedSquare := None;
        lastMove := Some (req_from move, req_to move);
        moveHistory := moveHistory st ++ [move_san r] |}, true).
Proof.
  intros H. unfold makeMove. now rewrite (game_move_some _ _ _ _ H).
Qed.

(** The branches of [handleSquareClick], one lemma each. *)
Lemma standalone_click_game_over (st : State) (sq : Square) :
  isGameOver st = true -> handleSquareClick st sq = (st, None).
Proof. intros H. unfold handleSquareClick. now rewrite H. Qed.

Lemma standalone_click_toggle (st : State) (sq : Square) :
  isGameOver st = false -> selectedSquare st = Some sq ->
  handleSquareClick st sq = (setSelectedSquare st None, None).
Proof.
  intros Hover Hsel. unfold handleSquareClick. rewrite Hover.
  apply same_square_true in Hsel. now rewrite Hsel.
Qed.

Lemma standalone_click_own (st : State) (sq : Square) :
  isGameOver st = false ->
  same_square (selectedSquare st) sq = false ->
  friendly (game_get (game st) sq) (turn st) = true ->
  handleSquareClick st sq = (setSelectedSquare st (Some sq), None).
Proof.
  intros Hover Hsel Hown. unfold handleSquareClick.
  now rewrite Hover, Hsel, Hown.
Qed.

Lemma standalone_click_idle_other (st : State) (sq : Square) :
  selectedSquare st = None ->
  friendly (game_get (game st) sq) (turn st) = false ->
  handleSquareClick st sq = (st, None).
Proof.
  intros Hsel Hown. unfold handleSquareClick.
  rewrite Hsel, Hown. simpl. now destruct (isGameOver st).
Qed.

Lemma standalone_click_move_rejected (st : State) (s sq : Square) :
  isGameOver st = false ->
  selectedSquare st = Some s ->
  same_square (Some s) sq = false ->
  friendly (game_get (game st) sq) (turn st) = false ->
  pos_move (position (game st)) (Games.request s sq) = None ->
  handleSquareClick st sq =
    (setSelectedSquare st None, Some (Games.request s sq)).
Proof.
  intros Hover Hsel Hne Hown Hrej. unfold handleSquareClick.
  rewrite Hover, Hsel, Hne, Hown.
  fold (Games.request s sq).
  now rewrite (standalone_makeMove_rejected _ _ Hrej).
Qed.

Lemma standalone_click_move_accepted (st : State) (s sq : Square)
      (p' : Position) (r : Move) :
  isGameOver st = false ->
  selectedSquare st = Some s ->
  same_square (Some s) sq = false ->
  friendly (game_get (game st) sq) (turn st) = false ->
  pos_move (position (game st)) (Games.request s sq) = Some (p', r) ->
  handleSquareClick st sq =
    ({| game := Chess_of_fen p'; selectedSquare := None;
        lastMove := Some (s, sq);
        moveHistory := moveHistory st ++ [move_san r] |},
     Some (Games.request s sq)).
Proof.
  intros Hover Hsel Hne Hown Hacc. unfold handleSquareClick.
  rewrite Hover, Hsel, Hne, Hown.
  fold (Games.request s sq).
  now rewrite (standalone_makeMove_accepted _ _ _ _ Hacc).
Qed.

(** Every click either leaves position, last move and history alone,
    or replaces the three together by the outcome of one accepted
    move. *)
Lemma standalone_click_commits_together (st : State) (sq : Square) :
  let st' := fst (handleSquareClick st sq) in
  (game st' = game st /\ lastMove st' = lastMove st
   /\ moveHistory st' = moveHistory st)
  \/ (exists s p' r,
         selectedSquare st = Some s
         /\ pos_move (position (game st)) (Games.request s sq) = Some (p', r)
         /\ st' = {| game := Chess_of_fen p'; selectedSquare := None;
                     lastMove := Some (s, sq);
                     moveHistory := moveHistory st ++ [move_san r] |}).
Proof.
  simpl.
  destruct (isGameOver st) eqn:Hover;
    [rewrite standalone_click_game_over by assumption; now left|].
  destruct (same_square (selectedSquare st) sq) eqn:Hsame.
  { apply same_square_true in Hsame.
    rewrite standalone_click_toggle by assumption. now left. }
  destruct (friendly (game_get (game st) sq) (turn st)) eqn:Hown.
  { rewrite standalone_click_own by assumption. now left. }
  destruct (selectedSquare st) as [s|] eqn:Hsel.
  - destruct (pos_move (position (game st)) (Games.request s sq))
      as [[p' r]|] eqn:Hmv.
    + right. exists s, p', r.
      rewrite (standalone_click_move_accepted _ _ _ _ _ Hover Hsel Hsame Hown Hmv).
      split; [reflexivity | split; [exact Hmv | reflexivity]].
    + left.
      now rewrite (standalone_click_move_rejected _ _ _ Hover Hsel Hsame Hown Hmv).
  - rewrite standalone_click_idle_other by assumption. now left.
Qed.

Lemma standalone_inv_initial : reachable_inv initial.
Proof.
  unfold reachable_inv. simpl. split; [reflexivity|].
  split; [reflexivity | discriminate].
Qed.

Lemma standalone_inv_step (st : State) (e : Event) :
  reachable_inv st -> reachable_inv (step st e).
Proof.
  unfold reachable_inv. intros (Hh & Hg & Hs).
  destruct e as [sq|]; simpl;
    [|split; [reflexivity | split; [reflexivity | discriminate]]].
  destruct (isGameOver st) eqn:Hover.
  { rewrite standalone_click_game_over by assumption. simpl.
    rewrite Hover. auto. }
  destruct (same_square (selectedSquare st) sq) eqn:Hsame.
  { apply same_square_true in Hsame.
    rewrite standalone_click_toggle by assumption. simpl.
    split; [assumption | split; [reflexivity | discriminate]]. }
  destruct (friendly (game_get (game st) sq) (turn st)) eqn:Hown.
  { rewrite standalone_click_own by assumption. simpl.
    split; [assumption | split].
    - unfold isGameOver in *. simpl. congruence.
    - intros s [= <-]. exact Hown. }
  destruct (selectedSquare st) as [s|] eqn:Hsel.
  - destruct (pos_move (position (game st)) (Games.request s sq))
      as [[p' r]|] eqn:Hmv.
    + rewrite (standalone_click_move_accepted _ _ _ _ _ Hover Hsel Hsame Hown Hmv).
      simpl. split; [reflexivity | split; [reflexivity | discriminate]].
    + rewrite (standalone_click_move_rejected _ _ _ Hover Hsel Hsame Hown Hmv).
      simpl. split; [assumption | split; [reflexivity | discriminate]].
  - rewrite standalone_click_idle_other by assumption. simpl.
    rewrite Hsel. split; [assumption | split; [reflexivity | discriminate]].
Qed.

Lemma standalone_inv_run (es : list Event) : reachable_inv (run es).
Proof.
  unfold run. induction es as [|e es IH] using rev_ind; simpl.
  - exact standalone_inv_initial.
  - rewrite fold_left_app. simpl. now apply standalone_inv_step.
Qed.
End StandaloneFacts.

(** ** The board component *)
Section ChessBoardFacts.
Context {E : RulesEngine}.
Import ChessBoard.

Lemma board_click_toggle (g : Chess) (bd : State) (sq : Square) :
  selectedSquare bd = Some sq ->
  handleSquareClick g bd sq = (initial, None).
Proof.
  intros H. apply same_square_true in H. unfold handleSquareClick.
  now rewrite H.
Qed.

Lemma board_click_own (g : Chess) (bd : State) (sq : Square) :
  same_square (selectedSquare bd) sq = false ->
  friendly (game_get g sq) (game_turn g) = true ->
  handleSquareClick g bd sq =
    ({| selectedSquare := Some sq; hintSquares := destinations g sq |}, None).
Proof.
  intros Hsel Hown. unfold handleSquareClick. now rewrite Hsel, Hown.
Qed.

Lemma board_click_hint (g : Chess) (bd : State) (s sq : Square) :
  selectedSquare bd = Some s ->
  same_square (Some s) sq = false ->
  friendly (game_get g sq) (game_turn g) = false ->
  includes (hintSquares bd) sq = true ->
  handleSquareClick g bd sq = (initial, Some (Games.request s sq)).
Proof.
  intros Hsel Hne Hown Hin. unfold handleSquareClick.
  now rewrite Hsel, Hne, Hown, Hin.
Qed.

Lemma board_click_cancel (g : Chess) (bd : State) (sq : Square) :
  friendly (game_get g sq) (game_turn g) = false ->
  includes (hintSquares bd) sq = false ->
  handleSquareClick g bd sq = (initial, None).
Proof.
  intros Hown Hin. unfold handleSquareClick. rewrite Hown, Hin.
  destruct (same_square (selectedSquare bd) sq); [reflexivity|].
  now destruct (selectedSquare bd).
Qed.

(** A click that is not on a piece of the side to move always leaves
    the board idle, whatever it asks the shell to do. *)
Lemma board_click_other_idle (g : Chess) (bd : State) (sq : Square) :
  friendly (game_get g sq) (game_turn g) = false ->
  fst (handleSquareClick g bd sq) = initial.
Proof.
  intros Hown. unfold handleSquareClick. rewrite Hown.
  destruct (same_square (selectedSquare bd) sq); [reflexivity|].
  destruct (selectedSquare bd); [|reflexivity].
  now destruct (includes (hintSquares bd) sq).
Qed.
End ChessBoardFacts.

(** ** The shell with the undo button *)
Section BoardAppFacts.
Context {E : RulesEngine}.
Import BoardApp.

Lemma updateStatus_game (g : Chess) (st : State) :
  game (updateStatus g st) = game st.
Proof.
  unfold updateStatus.
  destruct (game_isCheckmate g); [reflexivity|].
  now destruct (game_isDraw g).
Qed.

Lemma updateStatus_moveHistory (g : Chess) (st : State) :
  moveHistory (updateStatus g st) = moveHistory st.
Proof.
  unfold updateStatus.
  destruct (game_isCheckmate g); [reflexivity|].
  now destruct (game_isDraw g).
Qed.

(** [updateStatus] raises the flag on mate or draw and never lowers
    it. *)
Lemma updateStatus_gameEnded (g : Chess) (st : State) :
  gameEnded (updateStatus g st)
  = game_isCheckmate g || game_isDraw g || gameEnded st.
Proof.
  unfold updateStatus.
  destruct (game_isCheckmate g); [reflexivity|].
  now destruct (game_isDraw g).
Qed.

Lemma lastMove_snoc (st : State) (l : list Move) (r : Move) :
  moveHistory st = l ++ [r] -> lastMove st = Some r.
Proof.
  unfold lastMove. intros ->. destruct l as [|m l]; simpl; [reflexivity|].
  now rewrite last_last.
Qed.

Lemma board_makeMove_rejected (st : State) (move : MoveRequest) :
  pos_move (position (game st)) move = None -> makeMove st move = st.
Proof.
  intros H. unfold makeMove. now rewrite (game_move_none _ _ H).
Qed.

Lemma board_makeMove_accepted (st : State) (move : MoveRequest)
      (p' : Position) (r : Move) :
  pos_move (position (game st)) move = Some (p', r) ->
  game (makeMove st move) = Chess_of_fen p'
  /\ moveHistory (makeMove st move) = moveHistory st ++ [r]
  /\ lastMove (makeMove st move) = Some r.
Proof.
  intros H. unfold makeMove. rewrite (game_move_some _ _ _ _ H).
  assert (Hm : moveHistory
                 (updateStatus
                    {| position := p'; history := position (game st) :: history (game st) |}
                    {| game := Chess_of_fen
                                 (fen {| position := p';
                                         history := position (game st) :: history (game st) |});
                       moveHistory := moveHistory st ++ [r];
                       status := status st; gameEnded := gameEnded st |})
               = moveHistory st ++ [r])
    by now rewrite updateStatus_moveHistory.
  rewrite updateStatus_game. simpl.
  split; [reflexivity | split; [exact Hm | exact (lastMove_snoc _ _ _ Hm)]].
Qed.

Lemma undoMove_game (st : State) :
  game (undoMove st) = Chess_of_fen (fen (game_undo (game st))).
Proof. unfold undoMove. now rewrite updateStatus_game. Qed.

Lemma undoMove_moveHistory (st : State) :
  moveHistory (undoMove st) = removelast (moveHistory st).
Proof. unfold undoMove. now rewrite updateStatus_moveHistory. Qed.

(** On a freshly loaded object [undoMove] rebuilds the very same
    object: the position is not rewound. *)
Lemma undoMove_fresh (st : State) :
  history (game st) = [] -> game (undoMove st) = game st.
Proof.
  intros H. rewrite undoMove_game, (game_undo_fresh _ H).
  now apply Chess_of_fen_fresh.
Qed.

Lemma makeMove_fresh (st : State) (move : MoveRequest) :
  history (game st) = [] -> history (game (makeMove st move)) = [].
Proof.
  intros H. unfold makeMove.
  destruct (game_move (game st) move) as [[g' r]|]; [|assumption].
  now rewrite updateStatus_game.
Qed.

Lemma makeMove_gameEnded (st : State) (move : MoveRequest) :
  gameEnded st = true -> gameEnded (makeMove st move) = true.
Proof.
  intros H. unfold makeMove.
  destruct (game_move (game st) move) as [[g' r]|]; [|assumption].
  rewrite updateStatus_gameEnded. simpl. rewrite H. apply orb_true_r.
Qed.

Lemma undoMove_gameEnded (st : State) :
  gameEnded st = true -> gameEnded (undoMove st) = true.
Proof.
  intros H. unfold undoMove. rewrite updateStatus_gameEnded. simpl.
  rewrite H. apply orb_true_r.
Qed.

(** The object the shell holds is freshly loaded in every page. *)
Lemma step_fresh (pg : Page) (e : Event) :
  history (game (app pg)) = [] -> history (game (app (step pg e))) = [].
Proof.
  intros H. destruct e as [sq| |]; simpl.
  - unfold clickSquare.
    destruct (ChessBoard.handleSquareClick (game (app pg)) (board pg) sq)
      as [bd [move|]]; simpl; [now apply makeMove_fresh | assumption].
  - unfold clickUndo. destruct (undoDisabled (app pg)); simpl;
      [assumption|]. now rewrite undoMove_game.
  - reflexivity.
Qed.

Lemma run_fresh (es : list Event) : history (game (app (run es))) = [].
Proof.
  unfold run. induction es as [|e es IH] using rev_ind; simpl.
  - reflexivity.
  - rewrite fold_left_app. simpl. now apply step_fresh.
Qed.

(** Hence, in every page the user can reach, the undo button leaves
    the position as it is. *)
Lemma undo_never_rewinds (es : list Event) :
  game (app (fst (clickUndo (run es)))) = game (app (run es)).
Proof.
  unfold clickUndo. destruct (undoDisabled (app (run es))); simpl;
    [reflexivity|]. apply undoMove_fresh, run_fresh.
Qed.

(** Neither a click on a square nor the undo button lowers the
    game-ended flag. *)
Lemma step_gameEnded (pg : Page) (e : Event) :
  keeps_game e = true ->
  gameEnded (app pg) = true -> gameEnded (app (step pg e)) = true.
Proof.
  intros He H. destruct e as [sq| |]; simpl; [| |discriminate].
  - unfold clickSquare.
    destruct (ChessBoard.handleSquareClick (game (app pg)) (board pg) sq)
      as [bd [move|]]; simpl; [now apply makeMove_gameEnded | assumption].
  - unfold clickUndo. destruct (undoDisabled (app pg)); simpl;
      [assumption | now apply undoMove_gameEnded].
Qed.

Lemma page_inv_initial : page_inv initialPage.
Proof. unfold page_inv. simpl. auto. Qed.

Lemma page_inv_step (pg : Page) (e : Event) :
  keeps_game e = true -> page_inv pg -> page_inv (step pg e).
Proof.
  unfold page_inv. intros He (Hh & Hsel).
  destruct e as [sq| |]; simpl; [| |discriminate].
  - unfold clickSquare.
    destruct (same_square (ChessBoard.selectedSquare (board pg)) sq) eqn:Hsame.
    { apply same_square_true in Hsame.
      rewrite (board_click_toggle _ _ _ Hsame). simpl. auto. }
    destruct (friendly (game_get (game (app pg)) sq)
                       (game_turn (game (app pg)))) eqn:Hown.
    { rewrite (board_click_own _ _ _ Hsame Hown). simpl. auto. }
    pose proof (board_click_other_idle _ (board pg) _ Hown) as Hidle.
    destruct (ChessBoard.handleSquareClick (game (app pg)) (board pg) sq)
      as [bd [move|]]; simpl in *; subst bd; simpl.
    + split; [now apply makeMove_fresh | reflexivity].
    + auto.
  - unfold clickUndo. destruct (undoDisabled (app pg)); simpl; [auto|].
    rewrite (undoMove_fresh _ Hh). auto.
Qed.

Lemma page_inv_run (es : list Event) :
  forallb keeps_game es = true -> page_inv (run es).
Proof.
  unfold run. induction es as [|e es IH] using rev_ind; simpl; intros H.
  - exact page_inv_initial.
  - rewrite forallb_app in H. apply andb_true_iff in H as [H1 H2].
    simpl in H2. rewrite andb_true_r in H2.
    rewrite fold_left_app. simpl. apply page_inv_step; auto.
Qed.
End BoardAppFacts.

(** ** Moves and undo, over any rules engine *)
Section MoveAndUndo.
Context {E : RulesEngine}.

(** In the stand-alone application a click that arrives when the game
    is mated or drawn changes nothing and submits nothing. *)
Lemma standalone_click_refused_when_over
      (st : StandaloneApp.State) (sq : Square) :
  game_isCheckmate (StandaloneApp.game st) = true
  \/ game_isDraw (StandaloneApp.game st) = true ->
  StandaloneApp.handleSquareClick st sq = (st, None).
Proof.
  intros H. apply standalone_click_game_over.
  now apply game_over_of_status.
Qed.

(** ... and in the states the user can reach nothing is selected
    then. *)
Lemma standalone_idle_when_over (es : list StandaloneApp.Event) :
  StandaloneApp.isGameOver (StandaloneApp.run es) = true ->
  StandaloneApp.selectedSquare (StandaloneApp.run es) = None
  /\ StandaloneApp.validMoves (StandaloneApp.run es) = [].
Proof.
  intros H. destruct (standalone_inv_run es) as (_ & Hidle & _).
  unfold StandaloneApp.validMoves. rewrite (Hidle H). auto.
Qed.

(** C2, as amended: a move the rules engine rejects leaves game, last
    move, history and selection exactly as they were, and no exception
    escapes.  [App.tsx]'s [makeMove] then returns the failure value
    [false]; the shell's [makeMove] returns no value, for the rejected
    request as for any other. *)
Theorem rejected_move_changes_nothing
        (st : StandaloneApp.State) (sh : BoardApp.State) (move : MoveRequest) :
  pos_move (position (StandaloneApp.game st)) move = None ->
  pos_move (position (BoardApp.game sh)) move = None ->
  StandaloneApp.makeMove st move = (st, false)
  /\ ShellReturns.standalone_makeMove_returns st move
     = ShellReturns.ReturnedBool false
  /\ BoardApp.makeMove sh move = sh
  /\ ShellReturns.makeMove_returns sh move = ShellReturns.ReturnedUndefined
  /\ forall move' : MoveRequest,
       ShellReturns.makeMove_returns sh move' = ShellReturns.ReturnedUndefined.
Proof.
  intros Ha Hb.
  split; [now apply standalone_makeMove_rejected|].
  split.
  { unfold ShellReturns.standalone_makeMove_returns.
    now rewrite (standalone_makeMove_rejected _ _ Ha). }
  split; [now apply board_makeMove_rejected|].
  assert (Hu : forall move' : MoveRequest,
             ShellReturns.makeMove_returns sh move'
             = ShellReturns.ReturnedUndefined).
  { intros move'. unfold ShellReturns.makeMove_returns.
    now destruct (game_move (BoardApp.game sh) move'). }
  split; [apply Hu | exact Hu].
Qed.

(** C3: a move the rules engine accepts makes [makeMove] return
    [true] with the history one longer (the new notation at its end),
    nothing selected and no hints, the last move set to the request's
    endpoints and the game at the engine's new position; and any click
    either leaves game, last move and history alone or replaces the
    three together in this way. *)
Theorem accepted_move_commits
        (st : StandaloneApp.State) (move : MoveRequest)
        (p' : Position) (r : Move) :
  pos_move (position (StandaloneApp.game st)) move = Some (p', r) ->
  let st' := fst (StandaloneApp.makeMove st move) in
  snd (StandaloneApp.makeMove st move) = true
  /\ List.length (StandaloneApp.moveHistory st')
     = S (List.length (StandaloneApp.moveHistory st))
  /\ StandaloneApp.moveHistory st'
     = StandaloneApp.moveHistory st ++ [move_san r]
  /\ StandaloneApp.selectedSquare st' = None
  /\ StandaloneApp.validMoves st' = []
  /\ StandaloneApp.lastMove st' = Some (req_from move, req_to move)
  /\ fen (StandaloneApp.game st') = p'
  /\ forall (s0 : StandaloneApp.State) (sq : Square),
       let s1 := fst (StandaloneApp.handleSquareClick s0 sq) in
       (StandaloneApp.game s1 = StandaloneApp.game s0
        /\ StandaloneApp.lastMove s1 = StandaloneApp.lastMove s0
        /\ StandaloneApp.moveHistory s1 = StandaloneApp.moveHistory s0)
       \/ (exists s q' r',
              StandaloneApp.selectedSquare s0 = Some s
              /\ pos_move (position (StandaloneApp.game s0))
                          (Games.request s sq) = Some (q', r')
              /\ s1 = {| StandaloneApp.game := Chess_of_fen q';
                         StandaloneApp.selectedSquare := None;
                         StandaloneApp.lastMove := Some (s, sq);
                         StandaloneApp.moveHistory :=
                           StandaloneApp.moveHistory s0 ++ [move_san r'] |}).
Proof.
  intros H. rewrite (standalone_makeMove_accepted _ _ _ _ H). simpl.
  repeat (split; [try reflexivity|]).
  - rewrite List.length_app. simpl. lia.
  - intros s0 sq. apply standalone_click_commits_together.
Qed.

(** The shell's [makeMove] on an accepted move: history one longer
    and the [lastMove] prop is the engine's record of the move. *)
Lemma shell_accepted_move (sh : BoardApp.State) (move : MoveRequest)
      (p' : Position) (r : Move) :
  pos_move (position (BoardApp.game sh)) move = Some (p', r) ->
  let sh' := BoardApp.makeMove sh move in
  List.length (BoardApp.moveHistory sh') = S (List.length (BoardApp.moveHistory sh))
  /\ BoardApp.lastMove sh' = Some r
  /\ fen (BoardApp.game sh') = p'.
Proof.
  intros H. destruct (board_makeMove_accepted _ _ _ _ H) as (Hg & Hm & Hl).
  simpl. rewrite Hg, Hm, Hl, List.length_app. simpl.
  repeat split. lia.
Qed.

(** C4: undo right after an accepted move.  The history is back to
    what it was and so is the [lastMove] prop, but the position is
    still the one after the move: [undoMove] calls [undo] on an object
    that [makeMove] has just rebuilt from its FEN, which has nothing
    to undo. *)
Theorem undo_after_move_keeps_new_position
        (sh : BoardApp.State) (move : MoveRequest)
        (p' : Position) (r : Move) :
  pos_move (position (BoardApp.game sh)) move = Some (p', r) ->
  let sh1 := BoardApp.makeMove sh move in
  let sh2 := BoardApp.undoMove sh1 in
  fen (BoardApp.game sh2) = p'
  /\ fen (BoardApp.game sh2) = fen (BoardApp.game sh1)
  /\ BoardApp.moveHistory sh2 = BoardApp.moveHistory sh
  /\ List.length (BoardApp.moveHistory sh2) + 1
     = List.length (BoardApp.moveHistory sh1)
  /\ BoardApp.lastMove sh2 = BoardApp.lastMove sh.
Proof.
  intros H. destruct (board_makeMove_accepted _ _ _ _ H) as (Hg & Hm & _).
  simpl.
  assert (Hfresh : history (BoardApp.game (BoardApp.makeMove sh move)) = [])
    by now rewrite Hg.
  assert (Hh : BoardApp.moveHistory (BoardApp.undoMove (BoardApp.makeMove sh move))
               = BoardApp.moveHistory sh)
    by now rewrite undoMove_moveHistory, Hm, removelast_last.
  rewrite (undoMove_fresh _ Hfresh), Hg, Hm, List.length_app.
  unfold BoardApp.lastMove. rewrite Hh. simpl.
  repeat split.
Qed.

End MoveAndUndo.

(** ** Selection and hints, over any rules engine *)
Section Selection.
Context {E : RulesEngine}.

(** C6: a click on a square that holds a piece of the side to move
    (and is not the selected square) selects it, and the hints are the
    engine's destinations of that square in the current position, as
    a list and hence as a set, empty or not.  This holds in the
    stand-alone application, where the hints are [validMoves] and the
    game must not be over, and in the board component. *)
Theorem own_piece_click_selects_with_hints
        (st : StandaloneApp.State) (pg : BoardApp.Page) (sq : Square) :
  StandaloneApp.isGameOver st = false ->
  same_square (StandaloneApp.selectedSquare st) sq = false ->
  friendly (game_get (StandaloneApp.game st) sq) (StandaloneApp.turn st) = true ->
  same_square (ChessBoard.selectedSquare (BoardApp.board pg)) sq = false ->
  friendly (game_get (BoardApp.game (BoardApp.app pg)) sq)
           (game_turn (BoardApp.game (BoardApp.app pg))) = true ->
  let st' := fst (StandaloneApp.handleSquareClick st sq) in
  let pg' := BoardApp.clickSquare pg sq in
  StandaloneApp.selectedSquare st' = Some sq
  /\ StandaloneApp.validMoves st'
     = map move_to (pos_moves (fen (StandaloneApp.game st)) sq)
  /\ ChessBoard.selectedSquare (BoardApp.board pg') = Some sq
  /\ ChessBoard.hintSquares (BoardApp.board pg')
     = map move_to (pos_moves (fen (BoardApp.game (BoardApp.app pg))) sq)
  /\ (forall d, In d (ChessBoard.hintSquares (BoardApp.board pg'))
                <-> exists m, In m (pos_moves (fen (BoardApp.game (BoardApp.app pg))) sq)
                              /\ move_to m = d).
Proof.
  intros Hover Hsel Hown Hsel' Hown'. simpl.
  rewrite (standalone_click_own _ _ Hover Hsel Hown).
  unfold BoardApp.clickSquare.
  rewrite (board_click_own _ _ _ Hsel' Hown'). simpl.
  repeat (split; [reflexivity|]).
  intros d. unfold destinations, game_moves, fen. rewrite in_map_iff.
  split; intros (m & H1 & H2); exists m; auto.
Qed.

(** C7: with [s] selected, a click on another square [sq] that holds
    a piece of the side to move selects [sq] with its own
    destinations as hints; no request reaches the engine, and game,
    last move and history are the same.  Nothing is assumed about
    [sq] being among the hints of [s]. *)
Theorem reselect_other_own_piece
        (st : StandaloneApp.State) (pg : BoardApp.Page) (s sq : Square) :
  StandaloneApp.isGameOver st = false ->
  StandaloneApp.selectedSquare st = Some s ->
  ChessBoard.selectedSquare (BoardApp.board pg) = Some s ->
  s <> sq ->
  friendly (game_get (StandaloneApp.game st) sq) (StandaloneApp.turn st) = true ->
  friendly (game_get (BoardApp.game (BoardApp.app pg)) sq)
           (game_turn (BoardApp.game (BoardApp.app pg))) = true ->
  StandaloneApp.handleSquareClick st sq
  = ({| StandaloneApp.game := StandaloneApp.game st;
        StandaloneApp.selectedSquare := Some sq;
        StandaloneApp.lastMove := StandaloneApp.lastMove st;
        StandaloneApp.moveHistory := StandaloneApp.moveHistory st |}, None)
  /\ StandaloneApp.validMoves (fst (StandaloneApp.handleSquareClick st sq))
     = destinations (StandaloneApp.game st) sq
  /\ ChessBoard.handleSquareClick
       (BoardApp.game (BoardApp.app pg)) (BoardApp.board pg) sq
     = ({| ChessBoard.selectedSquare := Some sq;
           ChessBoard.hintSquares :=
             destinations (BoardApp.game (BoardApp.app pg)) sq |}, None)
  /\ BoardApp.clickSquare pg sq
     = {| BoardApp.app := BoardApp.app pg;
          BoardApp.board :=
            {| ChessBoard.selectedSquare := Some sq;
               ChessBoard.hintSquares :=
                 destinations (BoardApp.game (BoardApp.app pg)) sq |} |}.
Proof.
  intros Hover Hsel Hsel' Hne Hown Hown'.
  assert (Hsame : same_square (Some s) sq = false).
  { simpl. now apply String.eqb_neq. }
  assert (Ha : same_square (StandaloneApp.selectedSquare st) sq = false)
    by now rewrite Hsel.
  assert (Hb : same_square (ChessBoard.selectedSquare (BoardApp.board pg)) sq
               = false) by now rewrite Hsel'.
  unfold BoardApp.clickSquare.
  rewrite (standalone_click_own _ _ Hover Ha Hown).
  rewrite (board_click_own _ _ _ Hb Hown').
  repeat split.
Qed.

(** C8: with [s] selected, a click on a square that holds no piece of
    the side to move and is not among the hints deselects: nothing is
    selected, no hints are left, and game, history and last move are
    the same.  The board component sends no request at all; the
    stand-alone application does send the request and counts on the
    engine to reject a destination that is not among its own moves
    from [s]. *)
Theorem click_elsewhere_cancels
        (st : StandaloneApp.State) (pg : BoardApp.Page) (s sq : Square) :
  StandaloneApp.isGameOver st = false ->
  StandaloneApp.selectedSquare st = Some s ->
  friendly (game_get (StandaloneApp.game st) sq) (StandaloneApp.turn st) = false ->
  includes (StandaloneApp.validMoves st) sq = false ->
  (includes (destinations (StandaloneApp.game st) s) sq = false ->
   pos_move (position (StandaloneApp.game st)) (Games.request s sq) = None) ->
  ChessBoard.selectedSquare (BoardApp.board pg) = Some s ->
  friendly (game_get (BoardApp.game (BoardApp.app pg)) sq)
           (game_turn (BoardApp.game (BoardApp.app pg))) = false ->
  includes (ChessBoard.hintSquares (BoardApp.board pg)) sq = false ->
  let st' := fst (StandaloneApp.handleSquareClick st sq) in
  st' = {| StandaloneApp.game := StandaloneApp.game st;
           StandaloneApp.selectedSquare := None;
           StandaloneApp.lastMove := StandaloneApp.lastMove st;
           StandaloneApp.moveHistory := StandaloneApp.moveHistory st |}
  /\ StandaloneApp.validMoves st' = []
  /\ ChessBoard.handleSquareClick
       (BoardApp.game (BoardApp.app pg)) (BoardApp.board pg) sq
     = ({| ChessBoard.selectedSquare := None;
           ChessBoard.hintSquares := [] |}, None)
  /\ BoardApp.clickSquare pg sq
     = {| BoardApp.app := BoardApp.app pg;
          BoardApp.board := {| ChessBoard.selectedSquare := None;
                               ChessBoard.hintSquares := [] |} |}.
Proof.
  intros Hover Hsel Hown Hout Hagree Hsel' Hown' Hout'. simpl.
  assert (Ha : fst (StandaloneApp.handleSquareClick st sq)
               = StandaloneApp.setSelectedSquare st None).
  { destruct (same_square (Some s) sq) eqn:Hsame.
    - apply same_square_true in Hsame. injection Hsame as ->.
      now rewrite (standalone_click_toggle _ _ Hover Hsel).
    - unfold StandaloneApp.validMoves in Hout. rewrite Hsel in Hout.
      now rewrite (standalone_click_move_rejected _ _ _ Hover Hsel Hsame Hown
                     (Hagree Hout)). }
  unfold BoardApp.clickSquare.
  rewrite Ha, (board_click_cancel _ _ _ Hown' Hout').
  repeat split.
Qed.

(** After any sequence of clicks on squares from the freshly mounted
    page, a selected square holds a piece of the side to move of the
    current position; in the board component the stored hints are
    then that piece's destinations, and without a selection there are
    no hints. *)
Theorem selection_is_own_piece (clicks : list Square) (s : Square) :
  let st := StandaloneApp.run (map StandaloneApp.Click clicks) in
  let pg := BoardApp.run (map BoardApp.Click clicks) in
  (StandaloneApp.selectedSquare st = Some s ->
   friendly (game_get (StandaloneApp.game st) s) (StandaloneApp.turn st) = true)
  /\ (ChessBoard.selectedSquare (BoardApp.board pg) = Some s ->
      friendly (game_get (BoardApp.game (BoardApp.app pg)) s)
               (game_turn (BoardApp.game (BoardApp.app pg))) = true
      /\ ChessBoard.hintSquares (BoardApp.board pg)
         = destinations (BoardApp.game (BoardApp.app pg)) s)
  /\ (ChessBoard.selectedSquare (BoardApp.board pg) = None ->
      ChessBoard.hintSquares (BoardApp.board pg) = []).
Proof.
  simpl.
  destruct (standalone_inv_run (map StandaloneApp.Click clicks))
    as (_ & _ & Ha).
  assert (Hk : forallb BoardApp.keeps_game (map BoardApp.Click clicks) = true).
  { rewrite forallb_forall. intros e He. apply in_map_iff in He.
    now destruct He as (x & <- & _). }
  destruct (page_inv_run _ Hk) as (_ & Hb).
  split; [apply Ha|].
  split; intros Hsel; rewrite Hsel in Hb; exact Hb.
Qed.
End Selection.

(** ** The rules engine [Rules.engine] *)
Section RulesFacts.
Import Rules.

Lemma all_coords_on_board (c : Coord) :
  In c all_coords -> on_board c = true.
Proof.
  assert (H : forallb on_board all_coords = true) by reflexivity.
  rewrite forallb_forall in H. apply H.
Qed.

(** Naming a square of the board and decoding the name gives the
    square back. *)
Lemma square_roundtrip (c : Coord) :
  In c all_coords -> coord_of_square (square_of_coord c) = Some c.
Proof.
  unfold all_coords. simpl flat_map. intros H.
  repeat (destruct H as [<-|H]; [reflexivity|]). destruct H.
Qed.

Lemma Coord_eqb_refl (c : Coord) : Coord_eqb c c = true.
Proof. unfold Coord_eqb. now rewrite !Z.eqb_refl. Qed.

(** Every generator starts its moves on the square it was asked
    about. *)
Lemma slide_from (bd : Board) (us : Color) (t : PieceSymbol)
      (c0 d : Coord) (fuel : nat) :
  forall (c : Coord) (m : RawMove),
    In m (slide bd us t c0 c d fuel) -> rm_from m = c0.
Proof.
  induction fuel as [|fuel IH]; intros c m; simpl; [tauto|].
  destruct (on_board (shift c d)); [|simpl; tauto].
  destruct (piece_at bd (shift c d)) as [pc|].
  - destruct (Color_eqb (piece_color pc) us); simpl; [tauto|].
    intros [<-|[]]. reflexivity.
  - simpl. intros [<-|H]; [reflexivity | eapply IH; eassumption].
Qed.

Lemma slides_from (ps : Pos) (t : PieceSymbol) (c : Coord)
      (ds : list Coord) (m : RawMove) :
  In m (slides ps t c ds) -> rm_from m = c.
Proof.
  unfold slides. rewrite in_flat_map. intros (d & _ & H).
  eapply slide_from; eassumption.
Qed.

Lemma hops_from (ps : Pos) (t : PieceSymbol) (c : Coord)
      (ds : list Coord) (m : RawMove) :
  In m (hops ps t c ds) -> rm_from m = c.
Proof.
  unfold hops. rewrite in_flat_map. intros (d & _ & H).
  destruct (on_board (shift c d)); [|destruct H].
  destruct (piece_at (board ps) (shift c d)) as [pc|].
  - destruct (Color_eqb (piece_color pc) (side ps)); [destruct H|].
    destruct H as [<-|[]]. reflexivity.
  - destruct H as [<-|[]]. reflexivity.
Qed.

Lemma pawn_to_from (us : Color) (c c' : Coord) (fl : Flag) (m : RawMove) :
  In m (pawn_to us c c' fl) -> rm_from m = c.
Proof.
  unfold pawn_to. destruct (snd c' =? _)%Z.
  - rewrite in_map_iff. intros (t & <- & _). reflexivity.
  - intros [<-|[]]. reflexivity.
Qed.

Lemma pawn_moves_from (ps : Pos) (c : Coord) (m : RawMove) :
  In m (pawn_moves ps c) -> rm_from m = c.
Proof.
  unfold pawn_moves. rewrite in_app_iff. intros [H|H].
  - destruct (on_board _ && vacant _ _); [|destruct H].
    apply in_app_iff in H as [H|H]; [now apply pawn_to_from in H|].
    destruct (_ && _); [|destruct H]. destruct H as [<-|[]]. reflexivity.
  - apply in_flat_map in H as (dx & _ & H).
    destruct (on_board _); [|destruct H].
    destruct (piece_at _ _) as [pc|].
    + destruct (Color_eqb _ _); [destruct H | now apply pawn_to_from in H].
    + destruct (ep_square ps) as [e|]; [|destruct H].
      destruct (Coord_eqb e _); [|destruct H].
      destruct H as [<-|[]]. reflexivity.
Qed.

Lemma castle_moves_from (ps : Pos) (c : Coord) (m : RawMove) :
  In m (castle_moves ps c) -> rm_from m = c.
Proof.
  unfold castle_moves. rewrite in_app_iff.
  intros [H|H];
    match type of H with In _ (if ?b then _ else _) => destruct b end;
    try destruct H as [<-|[]]; try destruct H; reflexivity.
Qed.

Lemma piece_moves_from (ps : Pos) (c : Coord) (pc : Piece) (m : RawMove) :
  In m (piece_moves ps c pc) -> rm_from m = c.
Proof.
  unfold piece_moves. destruct (piece_type pc).
  - apply pawn_moves_from.
  - apply hops_from.
  - apply slides_from.
  - apply slides_from.
  - apply slides_from.
  - rewrite in_app_iff. intros [H|H];
      [eapply hops_from | eapply castle_moves_from]; eassumption.
Qed.

Lemma legal_moves_from_board (ps : Pos) (m : RawMove) :
  In m (legal_moves ps) -> In (rm_from m) all_coords.
Proof.
  unfold legal_moves, pseudo_moves. rewrite filter_In, in_flat_map.
  intros ((c & Hc & H) & _).
  destruct (piece_at (board ps) c) as [pc|]; [|destruct H].
  destruct (Color_eqb _ _); [|destruct H].
  now rewrite (piece_moves_from _ _ _ _ H).
Qed.

(** The engine accepts a request only if its destination is among the
    destinations it lists for the origin: what the stand-alone
    application counts on when it submits a click that is not a hint. *)
Lemma try_move_needs_destination
      (ps : Pos) (s sq : Square) (pr : option PieceSymbol) :
  includes (map move_to (moves_of ps s)) sq = false ->
  try_move ps {| req_from := s; req_to := sq; req_promotion := pr |} = None.
Proof.
  intros Hout. unfold try_move.
  match goal with |- context [find ?f ?l] => destruct (find f l) as [m|] eqn:Hf end;
    [|reflexivity].
  exfalso. apply find_some in Hf as [Hin Hm]. simpl in Hm.
  apply andb_true_iff in Hm as [Hm _].
  apply andb_true_iff in Hm as [Hfrom Hto].
  apply String.eqb_eq in Hfrom, Hto.
  assert (Hyes : includes (map move_to (moves_of ps s)) sq = true).
  { apply includes_In. unfold moves_of.
    rewrite Hfrom, (square_roundtrip _ (legal_moves_from_board _ _ Hin)).
    apply in_map_iff. exists (pretty ps (legal_moves ps) m).
    split; [now rewrite Hto|].
    apply in_map, filter_In. split; [assumption | apply Coord_eqb_refl]. }
  congruence.
Qed.
End RulesFacts.

(** ** The applications on real games *)
Section OnTheBoard.
Local Open Scope string_scope.

(** The move generator counts the 20, 400 and 8902 games of one, two
    and three plies from the initial position. *)
Example perft_start :
  Games.perft 1 Rules.start = 20%Z
  /\ Games.perft 2 Rules.start = 400%Z
  /\ Games.perft 3 Rules.start = 8902%Z.
Proof. vm_compute. repeat split. Qed.

(** 1. e2-e5 is rejected: [App.tsx]'s [makeMove] answers [false],
    the shell's answers nothing, and nothing changes. *)
Lemma rejected_move_witness :
  let st := Games.standalone_after [] in
  let sh := BoardApp.app (Games.page_after []) in
  pos_move (position (StandaloneApp.game st)) (Games.request "e2" "e5") = None
  /\ pos_move (position (BoardApp.game sh)) (Games.request "e2" "e5") = None
  /\ StandaloneApp.makeMove st (Games.request "e2" "e5") = (st, false)
  /\ BoardApp.makeMove sh (Games.request "e2" "e5") = sh
  /\ ShellReturns.makeMove_returns sh (Games.request "e2" "e5")
     = ShellReturns.ReturnedUndefined.
Proof.
  assert (H : Rules.try_move Rules.start (Games.request "e2" "e5") = None)
    by (vm_compute; reflexivity).
  split; [exact H|]. split; [exact H|].
  destruct (rejected_move_changes_nothing
              (Games.standalone_after []) (BoardApp.app (Games.page_after []))
              (Games.request "e2" "e5") H H) as (H1 & _ & H3 & H4 & _).
  split; [exact H1|]. split; [exact H3 | exact H4].
Defined.

(** 1. e2-e4 is accepted: one entry in the history, nothing selected,
    last move e2-e4. *)
Lemma accepted_move_witness :
  let st := Games.standalone_after [] in
  let st' := fst (StandaloneApp.makeMove st (Games.request "e2" "e4")) in
  exists p' r,
    pos_move (position (StandaloneApp.game st)) (Games.request "e2" "e4")
    = Some (p', r)
    /\ StandaloneApp.moveHistory st' = ["e4"]
    /\ StandaloneApp.selectedSquare st' = None
    /\ StandaloneApp.lastMove st' = Some ("e2", "e4")
    /\ fen (StandaloneApp.game st') = p'.
Proof.
  cbv zeta. eexists. eexists. split; [vm_compute; reflexivity|].
  edestruct (accepted_move_commits (Games.standalone_after [])
               (Games.request "e2" "e4"))
    as (_ & _ & H3 & H4 & _ & H6 & H7 & _); [vm_compute; reflexivity|].
  split; [exact H3|]. split; [exact H4|]. split; [exact H6 | exact H7].
Defined.

(** 1. e4 and then undo: the history is empty again, but the position
    is the one after 1. e4, not the initial one. *)
Lemma undo_after_move_witness :
  let sh := BoardApp.app (Games.page_after []) in
  let sh2 := BoardApp.undoMove (BoardApp.makeMove sh (Games.request "e2" "e4")) in
  exists p' r,
    pos_move (position (BoardApp.game sh)) (Games.request "e2" "e4")
    = Some (p', r)
    /\ fen (BoardApp.game sh2) = p'
    /\ BoardApp.moveHistory sh2 = []
    /\ fen (BoardApp.game sh2) <> fen (BoardApp.game sh)
    /\ game_get (BoardApp.game sh2) "e4"
       = Some {| piece_type := Pawn; piece_color := White |}
    /\ game_turn (BoardApp.game sh2) = Black.
Proof.
  cbv zeta. eexists. eexists. split; [vm_compute; reflexivity|].
  edestruct (undo_after_move_keeps_new_position
               (BoardApp.app (Games.page_after []))
               (Games.request "e2" "e4"))
    as (H1 & _ & H3 & _); [vm_compute; reflexivity|].
  split; [exact H1|]. split; [exact H3|].
  rewrite H1. split; [|split; vm_compute; reflexivity].
  intros Heq. apply (f_equal Rules.side) in Heq. vm_compute in Heq.
  discriminate Heq.
Defined.

(** The rook on a1 at the start: a piece of the side to move without
    a legal move is selected all the same, with no hints. *)
Lemma own_piece_click_witness :
  let st := Games.standalone_after [] in
  let pg := Games.page_after [] in
  friendly (game_get (BoardApp.game (BoardApp.app pg)) "a1")
           (game_turn (BoardApp.game (BoardApp.app pg))) = true
  /\ StandaloneApp.selectedSquare
       (fst (StandaloneApp.handleSquareClick st "a1")) = Some "a1"
  /\ StandaloneApp.validMoves
       (fst (StandaloneApp.handleSquareClick st "a1")) = []
  /\ ChessBoard.selectedSquare
       (BoardApp.board (BoardApp.clickSquare pg "a1")) = Some "a1"
  /\ ChessBoard.hintSquares
       (BoardApp.board (BoardApp.clickSquare pg "a1")) = [].
Proof.
  cbv zeta.
  assert (A1 : StandaloneApp.isGameOver (Games.standalone_after []) = false)
    by (vm_compute; reflexivity).
  assert (A2 : same_square
                 (StandaloneApp.selectedSquare (Games.standalone_after []))
                 "a1" = false) by (vm_compute; reflexivity).
  assert (A3 : friendly
                 (game_get (StandaloneApp.game (Games.standalone_after [])) "a1")
                 (StandaloneApp.turn (Games.standalone_after [])) = true)
    by (vm_compute; reflexivity).
  assert (A4 : same_square
                 (ChessBoard.selectedSquare (BoardApp.board (Games.page_after [])))
                 "a1" = false) by (vm_compute; reflexivity).
  assert (A5 : friendly
                 (game_get (BoardApp.game (BoardApp.app (Games.page_after []))) "a1")
                 (game_turn (BoardApp.game (BoardApp.app (Games.page_after []))))
               = true) by (vm_compute; reflexivity).
  pose proof (own_piece_click_selects_with_hints _ _ _ A1 A2 A3 A4 A5) as H.
  cbv zeta in H. destruct H as (H1 & H2 & H3 & H4 & _).
  split; [exact A5|]. split; [exact H1|].
  split; [etransitivity; [exact H2 | vm_compute; reflexivity]|].
  split; [exact H3|].
  etransitivity; [exact H4 | vm_compute; reflexivity].
Defined.

(** With the e2 pawn selected, a click on the g1 knight selects the
    knight with the hints h3 and f3. *)
Lemma reselect_witness :
  let st := Games.standalone_after ["e2"] in
  let pg := Games.page_after ["e2"] in
  StandaloneApp.selectedSquare st = Some "e2"
  /\ ChessBoard.selectedSquare (BoardApp.board pg) = Some "e2"
  /\ ChessBoard.hintSquares (BoardApp.board pg) = ["e3"; "e4"]
  /\ snd (StandaloneApp.handleSquareClick st "g1") = None
  /\ StandaloneApp.validMoves (fst (StandaloneApp.handleSquareClick st "g1"))
     = ["h3"; "f3"]
  /\ BoardApp.app (BoardApp.clickSquare pg "g1") = BoardApp.app pg
  /\ BoardApp.board (BoardApp.clickSquare pg "g1")
     = {| ChessBoard.selectedSquare := Some "g1";
          ChessBoard.hintSquares := ["h3"; "f3"] |}.
Proof.
  cbv zeta.
  assert (A1 : StandaloneApp.isGameOver (Games.standalone_after ["e2"]) = false)
    by (vm_compute; reflexivity).
  assert (A2 : StandaloneApp.selectedSquare (Games.standalone_after ["e2"])
               = Some "e2") by (vm_compute; reflexivity).
  assert (A3 : ChessBoard.selectedSquare (BoardApp.board (Games.page_after ["e2"]))
               = Some "e2") by (vm_compute; reflexivity).
  assert (A4 : "e2" <> "g1") by discriminate.
  assert (A5 : friendly
                 (game_get (StandaloneApp.game (Games.standalone_after ["e2"])) "g1")
                 (StandaloneApp.turn (Games.standalone_after ["e2"])) = true)
    by (vm_compute; reflexivity).
  assert (A6 : friendly
                 (game_get (BoardApp.game (BoardApp.app (Games.page_after ["e2"]))) "g1")
                 (game_turn (BoardApp.game (BoardApp.app (Games.page_after ["e2"]))))
               = true) by (vm_compute; reflexivity).
  pose proof (reselect_other_own_piece _ _ _ _ A1 A2 A3 A4 A5 A6) as H.
  destruct H as (H1 & H2 & _ & H4).
  split; [exact A2|]. split; [exact A3|].
  split; [vm_compute; reflexivity|].
  split; [exact (f_equal snd H1)|].
  split; [etransitivity; [exact H2 | vm_compute; reflexivity]|].
  split; [exact (f_equal BoardApp.app H4)|].
  etransitivity; [exact (f_equal BoardApp.board H4) | vm_compute; reflexivity].
Defined.

(** With the e2 pawn selected, a click on the empty square e5 (not a
    hint) deselects and changes nothing else. *)
Lemma click_elsewhere_witness :
  let st := Games.standalone_after ["e2"] in
  let pg := Games.page_after ["e2"] in
  let st' := fst (StandaloneApp.handleSquareClick st "e5") in
  includes (StandaloneApp.validMoves st) "e5" = false
  /\ includes (ChessBoard.hintSquares (BoardApp.board pg)) "e5" = false
  /\ StandaloneApp.selectedSquare st' = None
  /\ StandaloneApp.game st' = StandaloneApp.game st
  /\ StandaloneApp.moveHistory st' = []
  /\ StandaloneApp.lastMove st' = None
  /\ BoardApp.app (BoardApp.clickSquare pg "e5") = BoardApp.app pg
  /\ BoardApp.board (BoardApp.clickSquare pg "e5") = ChessBoard.initial.
Proof.
  cbv zeta.
  assert (A1 : StandaloneApp.isGameOver (Games.standalone_after ["e2"]) = false)
    by (vm_compute; reflexivity).
  assert (A2 : StandaloneApp.selectedSquare (Games.standalone_after ["e2"])
               = Some "e2") by (vm_compute; reflexivity).
  assert (A3 : friendly
                 (game_get (StandaloneApp.game (Games.standalone_after ["e2"])) "e5")
                 (StandaloneApp.turn (Games.standalone_after ["e2"])) = false)
    by (vm_compute; reflexivity).
  assert (A4 : includes (StandaloneApp.validMoves (Games.standalone_after ["e2"]))
                        "e5" = false) by (vm_compute; reflexivity).
  assert (A5 : includes
                 (destinations
                    (StandaloneApp.game (Games.standalone_after ["e2"])) "e2")
                 "e5" = false ->
               pos_move
                 (position (StandaloneApp.game (Games.standalone_after ["e2"])))
                 (Games.request "e2" "e5") = None)
    by exact (try_move_needs_destination _ "e2" "e5" (Some Queen)).
  assert (A6 : ChessBoard.selectedSquare (BoardApp.board (Games.page_after ["e2"]))
               = Some "e2") by (vm_compute; reflexivity).
  assert (A7 : friendly
                 (game_get (BoardApp.game (BoardApp.app (Games.page_after ["e2"]))) "e5")
                 (game_turn (BoardApp.game (BoardApp.app (Games.page_after ["e2"]))))
               = false) by (vm_compute; reflexivity).
  assert (A8 : includes
                 (ChessBoard.hintSquares (BoardApp.board (Games.page_after ["e2"])))
                 "e5" = false) by (vm_compute; reflexivity).
  pose proof (click_elsewhere_cancels _ _ _ _ A1 A2 A3 A4 A5 A6 A7 A8) as H.
  cbv zeta in H. destruct H as (H1 & _ & _ & H4).
  split; [exact A4|]. split; [exact A8|].
  split; [exact (f_equal StandaloneApp.selectedSquare H1)|].
  split; [exact (f_equal StandaloneApp.game H1)|].
  split; [etransitivity;
          [exact (f_equal StandaloneApp.moveHistory H1) | vm_compute; reflexivity]|].
  split; [etransitivity;
          [exact (f_equal StandaloneApp.lastMove H1) | vm_compute; reflexivity]|].
  split; [exact (f_equal BoardApp.app H4) | exact (f_equal BoardApp.board H4)].
Defined.

(** After a click on e2 the pawn is selected: it is White's and White
    is to move, and the board's hints are its two destinations. *)
Lemma selection_is_own_piece_witness :
  let st := Games.standalone_after ["e2"] in
  let pg := Games.page_after ["e2"] in
  StandaloneApp.selectedSquare st = Some "e2"
  /\ ChessBoard.selectedSquare (BoardApp.board pg) = Some "e2"
  /\ friendly (game_get (StandaloneApp.game st) "e2") (StandaloneApp.turn st)
     = true
  /\ friendly (game_get (BoardApp.game (BoardApp.app pg)) "e2")
              (game_turn (BoardApp.game (BoardApp.app pg))) = true
  /\ ChessBoard.hintSquares (BoardApp.board pg)
     = destinations (BoardApp.game (BoardApp.app pg)) "e2".
Proof.
  cbv zeta.
  assert (A1 : StandaloneApp.selectedSquare (Games.standalone_after ["e2"])
               = Some "e2") by (vm_compute; reflexivity).
  assert (A2 : ChessBoard.selectedSquare (BoardApp.board (Games.page_after ["e2"]))
               = Some "e2") by (vm_compute; reflexivity).
  pose proof (@selection_is_own_piece Rules.engine ["e2"] "e2") as H.
  cbv zeta in H. destruct H as (Ha & Hb & _).
  split; [exact A1|]. split; [exact A2|].
  split; [exact (Ha A1)|]. exact (Hb A2).
Defined.

(** The fool's mate in the stand-alone application: four entries in
    the history, last move d8-h4, White mated, game over, nothing
    selected. *)
Example fools_mate_standalone :
  let st := Games.standalone_after Games.fools_mate in
  StandaloneApp.moveHistory st = ["f3"; "e5"; "g4"; "Qh4#"]
  /\ StandaloneApp.lastMove st = Some ("d8", "h4")
  /\ game_isCheckmate (StandaloneApp.game st) = true
  /\ StandaloneApp.isGameOver st = true
  /\ StandaloneApp.turn st = White
  /\ StandaloneApp.selectedSquare st = None.
Proof. cbv zeta. repeat split; vm_compute; reflexivity. Qed.

(** C1: the board component does not look at the end of the game.
    After the four moves of the fool's mate the shell reports
    checkmate and has raised [gameEnded], and nothing is selected;
    a click on e1 then selects the white king (with no hints).  The
    stand-alone application, in the same position, ignores the same
    click. *)
Theorem board_click_after_mate_selects :
  let pg := Games.page_after Games.fools_mate in
  let st := Games.standalone_after Games.fools_mate in
  game_isCheckmate (BoardApp.game (BoardApp.app pg)) = true
  /\ BoardApp.gameEnded (BoardApp.app pg) = true
  /\ BoardApp.status (BoardApp.app pg) = "Game Over - Checkmate! Black wins."
  /\ BoardApp.board pg = ChessBoard.initial
  /\ BoardApp.board (BoardApp.clickSquare pg "e1")
     = {| ChessBoard.selectedSquare := Some "e1";
          ChessBoard.hintSquares := [] |}
  /\ StandaloneApp.handleSquareClick st "e1" = (st, None)
  /\ StandaloneApp.selectedSquare st = None.
Proof.
  cbv zeta.
  do 5 (split; [vm_compute; reflexivity|]).
  split; [|vm_compute; reflexivity].
  apply standalone_click_game_over. vm_compute. reflexivity.
Qed.

(** C10: undo after the mating move of the fool's mate.  The button
    is enabled and [undoMove] runs: the history loses its last entry
    and [gameEnded] stays raised, but the position is still the mated
    one, not the position before the mating move. *)
Theorem undo_after_mate_keeps_mate :
  let pg := Games.page_after Games.fools_mate in
  let pg' := fst (BoardApp.clickUndo pg) in
  BoardApp.gameEnded (BoardApp.app pg) = true
  /\ snd (BoardApp.clickUndo pg) = true
  /\ map move_san (BoardApp.moveHistory (BoardApp.app pg))
     = ["f3"; "e5"; "g4"; "Qh4#"]
  /\ map move_san (BoardApp.moveHistory (BoardApp.app pg'))
     = ["f3"; "e5"; "g4"]
  /\ fen (BoardApp.game (BoardApp.app pg'))
     = fen (BoardApp.game (BoardApp.app pg))
  /\ fen (BoardApp.game (BoardApp.app pg'))
     <> fen (BoardApp.game (BoardApp.app (Games.page_after Games.before_mate)))
  /\ game_isCheckmate (BoardApp.game (BoardApp.app pg')) = true
  /\ BoardApp.gameEnded (BoardApp.app pg') = true.
Proof.
  cbv zeta.
  do 5 (split; [vm_compute; reflexivity|]).
  split; [|split; vm_compute; reflexivity].
  intros Heq. apply (f_equal Rules.side) in Heq. vm_compute in Heq.
  discriminate Heq.
Qed.
End OnTheBoard.

(** * Further properties of the handlers *)
Section ClickLevel.
Context {E : RulesEngine}.

(** X1: a click on the square that is selected deselects it: no hints
    are left, nothing is sent to the engine, and game, last move and
    history stay as they are (stand-alone application, game not over,
    and board component). *)
Theorem click_on_selected_square_deselects
        (st : StandaloneApp.State) (pg : BoardApp.Page) (sq : Square) :
  StandaloneApp.isGameOver st = false ->
  StandaloneApp.selectedSquare st = Some sq ->
  ChessBoard.selectedSquare (BoardApp.board pg) = Some sq ->
  StandaloneApp.handleSquareClick st sq
  = ({| StandaloneApp.game := StandaloneApp.game st;
        StandaloneApp.selectedSquare := None;
        StandaloneApp.lastMove := StandaloneApp.lastMove st;
        StandaloneApp.moveHistory := StandaloneApp.moveHistory st |}, None)
  /\ StandaloneApp.validMoves (fst (StandaloneApp.handleSquareClick st sq)) = []
  /\ BoardApp.clickSquare pg sq
     = {| BoardApp.app := BoardApp.app pg;
          BoardApp.board := {| ChessBoard.selectedSquare := None;
                               ChessBoard.hintSquares := [] |} |}.
Proof.
  intros Hover Hsel Hsel'.
  rewrite (standalone_click_toggle _ _ Hover Hsel).
  unfold BoardApp.clickSquare.
  rewrite (board_click_toggle _ _ _ Hsel').
  repeat split.
Qed.

(** X2: with nothing selected, a click on a square that holds no piece
    of the side to move is ignored: the stand-alone state is the same
    and nothing is sent to the engine; the board component stays
    without selection and hints and does not call [onMove]. *)
Theorem idle_click_elsewhere_ignored
        (st : StandaloneApp.State) (pg : BoardApp.Page) (sq : Square) :
  StandaloneApp.selectedSquare st = None ->
  friendly (game_get (StandaloneApp.game st) sq) (StandaloneApp.turn st) = false ->
  ChessBoard.selectedSquare (BoardApp.board pg) = None ->
  friendly (game_get (BoardApp.game (BoardApp.app pg)) sq)
           (game_turn (BoardApp.game (BoardApp.app pg))) = false ->
  StandaloneApp.handleSquareClick st sq = (st, None)
  /\ BoardApp.clickSquare pg sq
     = {| BoardApp.app := BoardApp.app pg;
          BoardApp.board := {| ChessBoard.selectedSquare := None;
                               ChessBoard.hintSquares := [] |} |}.
Proof.
  intros Hsel Hown Hsel' Hown'. split.
  - now apply standalone_click_idle_other.
  - unfold BoardApp.clickSquare, ChessBoard.handleSquareClick.
    now rewrite Hsel', Hown'.
Qed.

(** X3: after a click the selection is empty or is the clicked square,
    and it is the clicked square only if that square holds a piece of
    the side to move. *)
Theorem click_selects_only_clicked_own_piece
        (st : StandaloneApp.State) (g : Chess) (bd : ChessBoard.State)
        (sq : Square) :
  StandaloneApp.isGameOver st = false ->
  let sel := StandaloneApp.selectedSquare
               (fst (StandaloneApp.handleSquareClick st sq)) in
  let sel' := ChessBoard.selectedSquare
                (fst (ChessBoard.handleSquareClick g bd sq)) in
  (sel = None
   \/ (sel = Some sq
       /\ friendly (game_get (StandaloneApp.game st) sq)
                   (StandaloneApp.turn st) = true))
  /\ (sel' = None
      \/ (sel' = Some sq /\ friendly (game_get g sq) (game_turn g) = true)).
Proof.
  intros Hover. cbv zeta. split.
  - destruct (same_square (StandaloneApp.selectedSquare st) sq) eqn:Hsame.
    { apply same_square_true in Hsame.
      rewrite (standalone_click_toggle _ _ Hover Hsame). now left. }
    destruct (friendly (game_get (StandaloneApp.game st) sq)
                       (StandaloneApp.turn st)) eqn:Hown.
    { rewrite (standalone_click_own _ _ Hover Hsame Hown). now right. }
    destruct (StandaloneApp.selectedSquare st) as [s|] eqn:Hsel.
    + destruct (pos_move (position (StandaloneApp.game st)) (Games.request s sq))
        as [[p' r]|] eqn:Hmv.
      * rewrite (standalone_click_move_accepted _ _ _ _ _ Hover Hsel Hsame Hown Hmv).
        now left.
      * rewrite (standalone_click_move_rejected _ _ _ Hover Hsel Hsame Hown Hmv).
        now left.
    + rewrite (standalone_click_idle_other _ _ Hsel Hown). now left.
  - destruct (same_square (ChessBoard.selectedSquare bd) sq) eqn:Hsame.
    { apply same_square_true in Hsame.
      rewrite (board_click_toggle _ _ _ Hsame). now left. }
    destruct (friendly (game_get g sq) (game_turn g)) eqn:Hown.
    { rewrite (board_click_own _ _ _ Hsame Hown). now right. }
    rewrite (board_click_other_idle _ _ _ Hown). now left.
Qed.

(** X4: the stand-alone handler sends a request to the engine only
    when the game is not over, a square is selected, and the clicked
    square is another square without a piece of the side to move; the
    request goes from the selected to the clicked square with promotion
    to a queen. *)
Theorem standalone_request_discipline
        (st : StandaloneApp.State) (sq : Square) (req : MoveRequest) :
  snd (StandaloneApp.handleSquareClick st sq) = Some req ->
  StandaloneApp.isGameOver st = false
  /\ StandaloneApp.selectedSquare st = Some (req_from req)
  /\ req_from req <> sq
  /\ friendly (game_get (StandaloneApp.game st) sq) (StandaloneApp.turn st) = false
  /\ req = {| req_from := req_from req; req_to := sq;
              req_promotion := Some Queen |}.
Proof.
  destruct (StandaloneApp.isGameOver st) eqn:Hover.
  { rewrite (standalone_click_game_over _ _ Hover). discriminate. }
  destruct (same_square (StandaloneApp.selectedSquare st) sq) eqn:Hsame.
  { pose proof Hsame as Hs. apply same_square_true in Hs.
    rewrite (standalone_click_toggle _ _ Hover Hs). discriminate. }
  destruct (friendly (game_get (StandaloneApp.game st) sq)
                     (StandaloneApp.turn st)) eqn:Hown.
  { rewrite (standalone_click_own _ _ Hover Hsame Hown). discriminate. }
  destruct (StandaloneApp.selectedSquare st) as [s|] eqn:Hsel.
  - assert (Hne : s <> sq) by (simpl in Hsame; now apply String.eqb_neq).
    destruct (pos_move (position (StandaloneApp.game st)) (Games.request s sq))
      as [[p' r]|] eqn:Hmv.
    + rewrite (standalone_click_move_accepted _ _ _ _ _ Hover Hsel Hsame Hown Hmv).
      simpl. intros [= <-]. simpl. auto.
    + rewrite (standalone_click_move_rejected _ _ _ Hover Hsel Hsame Hown Hmv).
      simpl. intros [= <-]. simpl. auto.
  - rewrite (standalone_click_idle_other _ _ Hsel Hown). discriminate.
Qed.

End ClickLevel.

(** * Further properties of whole runs *)

(** The six ways a click can go in the stand-alone application. *)
Ltac standalone_cases st sq :=
  let Hover := fresh "Hover" in
  let Hsame := fresh "Hsame" in
  let Hown := fresh "Hown" in
  let Hsel := fresh "Hsel" in
  let Hmv := fresh "Hmv" in
  let s := fresh "s" in
  let p' := fresh "p'" in
  let r := fresh "r" in
  destruct (StandaloneApp.isGameOver st) eqn:Hover;
  [ rewrite (standalone_click_game_over st sq Hover)
  | destruct (same_square (StandaloneApp.selectedSquare st) sq) eqn:Hsame;
    [ rewrite (standalone_click_toggle st sq Hover
                 (proj1 (same_square_true _ _) Hsame))
    | destruct (friendly (game_get (StandaloneApp.game st) sq)
                         (StandaloneApp.turn st)) eqn:Hown;
      [ rewrite (standalone_click_own st sq Hover Hsame Hown)
      | destruct (StandaloneApp.selectedSquare st) as [s|] eqn:Hsel;
        [ destruct (pos_move (position (StandaloneApp.game st))
                             (Games.request s sq)) as [[p' r]|] eqn:Hmv;
          [ rewrite (standalone_click_move_accepted
                       st s sq p' r Hover Hsel Hsame Hown Hmv)
          | rewrite (standalone_click_move_rejected
                       st s sq Hover Hsel Hsame Hown Hmv) ]
        | rewrite (standalone_click_idle_other st sq Hsel Hown) ] ] ] ].

Section StandaloneRuns.
Context {E : RulesEngine}.

(** X6: once the game is over in the stand-alone application, no
    sequence of clicks on squares changes anything in the state. *)
Theorem standalone_frozen_when_over
        (st : StandaloneApp.State) (clicks : list Square) :
  StandaloneApp.isGameOver st = true ->
  fold_left StandaloneApp.step (map StandaloneApp.Click clicks) st = st.
Proof.
  intros Hover. induction clicks as [|c cs IH]; simpl; [reflexivity|].
  now rewrite (standalone_click_game_over _ _ Hover).
Qed.

(** X7: "New Game" forgets everything before it: a run that contains
    it ends in the state that the events after it reach from the
    initial state. *)
Theorem standalone_new_game_forgets (es es' : list StandaloneApp.Event) :
  StandaloneApp.run (es ++ StandaloneApp.NewGame :: es') = StandaloneApp.run es'.
Proof.
  unfold StandaloneApp.run. rewrite fold_left_app. reflexivity.
Qed.

Lemma standalone_coherent_step (st : StandaloneApp.State) (e : StandaloneApp.Event) :
  Measures.standalone_coherent st ->
  Measures.standalone_coherent (StandaloneApp.step st e).
Proof.
  unfold Measures.standalone_coherent. intros (Hiff & Hne).
  destruct e as [sq|]; simpl;
    [|split; [tauto | discriminate]].
  standalone_cases st sq; simpl; try (split; assumption).
  split.
  - split; [discriminate|]. intros H. now apply app_eq_nil in H as [_ H].
  - intros a b [= <- <-]. simpl in Hsame. now apply String.eqb_neq.
Qed.

(** X8: in every state of the stand-alone application there is a last
    move exactly when the history is not empty, and the last move joins
    two different squares. *)
Theorem standalone_last_move_coherent (es : list StandaloneApp.Event) :
  (StandaloneApp.lastMove (StandaloneApp.run es) = None
   <-> StandaloneApp.moveHistory (StandaloneApp.run es) = [])
  /\ forall a b, StandaloneApp.lastMove (StandaloneApp.run es) = Some (a, b)
                 -> a <> b.
Proof.
  change (Measures.standalone_coherent (StandaloneApp.run es)).
  unfold StandaloneApp.run.
  induction es as [|e es IH] using rev_ind; simpl.
  - split; [tauto | discriminate].
  - rewrite fold_left_app. simpl. now apply standalone_coherent_step.
Qed.

Lemma standalone_clicks_step (st : StandaloneApp.State) (e : StandaloneApp.Event) :
  Measures.standalone_clicks (StandaloneApp.step st e)
  <= S (Measures.standalone_clicks st).
Proof.
  unfold Measures.standalone_clicks.
  destruct e as [sq|]; simpl; [|apply Nat.le_0_l].
  standalone_cases st sq; simpl; try rewrite List.length_app; simpl.
  all: try rewrite Hsel; try destruct (StandaloneApp.selectedSquare st); lia.
Qed.

Lemma board_moveHistory_makeMove (sh : BoardApp.State) (move : MoveRequest) :
  List.length (BoardApp.moveHistory (BoardApp.makeMove sh move))
  <= S (List.length (BoardApp.moveHistory sh)).
Proof.
  destruct (pos_move (position (BoardApp.game sh)) move) as [[p' r]|] eqn:H.
  - destruct (board_makeMove_accepted _ _ _ _ H) as (_ & Hm & _).
    rewrite Hm, List.length_app. simpl. lia.
  - rewrite (board_makeMove_rejected _ _ H). lia.
Qed.

Lemma length_removelast_le {A : Type} (l : list A) :
  List.length (removelast l) <= List.length l.
Proof.
  induction l as [|a [|b l] IH]; simpl in *; lia.
Qed.

Lemma page_clicks_step (pg : BoardApp.Page) (e : BoardApp.Event) :
  Measures.page_clicks (BoardApp.step pg e) <= S (Measures.page_clicks pg).
Proof.
  unfold Measures.page_clicks. destruct e as [sq| |]; simpl.
  - unfold BoardApp.clickSquare, ChessBoard.handleSquareClick.
    destruct (same_square _ sq); simpl; [lia|].
    destruct (friendly _ _); simpl;
      [destruct (ChessBoard.selectedSquare (BoardApp.board pg)); lia|].
    destruct (ChessBoard.selectedSquare (BoardApp.board pg)); simpl; [|lia].
    destruct (includes _ sq); simpl; [|lia].
    pose proof (board_moveHistory_makeMove (BoardApp.app pg)
                  {| req_from := s; req_to := sq; req_promotion := Some Queen |}).
    lia.
  - unfold BoardApp.clickUndo. destruct (BoardApp.undoDisabled _); simpl; [lia|].
    rewrite undoMove_moveHistory.
    pose proof (length_removelast_le (BoardApp.moveHistory (BoardApp.app pg))).
    lia.
  - lia.
Qed.

(** X9: a move costs two clicks: after any run of events, twice the
    length of the history is at most the number of events (in both
    applications; for the shell, "Undo" and "New Game" count as
    events). *)
Theorem two_clicks_per_move
        (es : list StandaloneApp.Event) (es' : list BoardApp.Event) :
  2 * List.length (StandaloneApp.moveHistory (StandaloneApp.run es))
  <= List.length es
  /\ 2 * List.length (BoardApp.moveHistory (BoardApp.app (BoardApp.run es')))
     <= List.length es'.
Proof.
  split.
  - assert (H : Measures.standalone_clicks (StandaloneApp.run es)
                <= List.length es).
    { unfold StandaloneApp.run.
      induction es as [|e es IH] using rev_ind; simpl; [apply Nat.le_refl|].
      rewrite fold_left_app, List.length_app. simpl.
      pose proof (standalone_clicks_step
                    (fold_left StandaloneApp.step es StandaloneApp.initial) e).
      lia. }
    unfold Measures.standalone_clicks in H. lia.
  - assert (H : Measures.page_clicks (BoardApp.run es') <= List.length es').
    { unfold BoardApp.run.
      induction es' as [|e es' IH] using rev_ind; simpl; [apply Nat.le_refl|].
      rewrite fold_left_app, List.length_app. simpl.
      pose proof (page_clicks_step
                    (fold_left BoardApp.step es' BoardApp.initialPage) e).
      lia. }
    unfold Measures.page_clicks in H. lia.
Qed.

(** X10: in the stand-alone application clicks only ever append to the
    history: after any clicks on squares the old history is a prefix of
    the new one. *)
Theorem standalone_history_append_only
        (st : StandaloneApp.State) (clicks : list Square) :
  exists added,
    StandaloneApp.moveHistory
      (fold_left StandaloneApp.step (map StandaloneApp.Click clicks) st)
    = StandaloneApp.moveHistory st ++ added.
Proof.
  revert st. induction clicks as [|c cs IH]; intros st; simpl.
  - exists []. now rewrite app_nil_r.
  - destruct (IH (fst (StandaloneApp.handleSquareClick st c))) as (l & Hl).
    rewrite Hl.
    destruct (standalone_click_commits_together st c)
      as [(_ & _ & Hm) | (s & p' & r & _ & _ & Hst)].
    + exists l. now rewrite Hm.
    + exists (move_san r :: l). rewrite Hst. simpl.
      now rewrite <- app_assoc.
Qed.
End StandaloneRuns.

Section ShellRuns.
Context {E : RulesEngine}.
Local Open Scope string_scope.

(** X11: every click on a square of the board application either
    leaves the shell's state alone or commits one accepted move as a
    whole: game at the engine's new position, the engine's record
    appended to the history and shown as last move; the clicked square
    was then a hint of the selected square, and the board is idle. *)
Theorem board_click_commits_together (pg : BoardApp.Page) (sq : Square) :
  BoardApp.app (BoardApp.clickSquare pg sq) = BoardApp.app pg
  \/ exists s p' r,
       ChessBoard.selectedSquare (BoardApp.board pg) = Some s
       /\ includes (ChessBoard.hintSquares (BoardApp.board pg)) sq = true
       /\ pos_move (position (BoardApp.game (BoardApp.app pg)))
                   (Games.request s sq) = Some (p', r)
       /\ BoardApp.game (BoardApp.app (BoardApp.clickSquare pg sq))
          = Chess_of_fen p'
       /\ BoardApp.moveHistory (BoardApp.app (BoardApp.clickSquare pg sq))
          = (BoardApp.moveHistory (BoardApp.app pg) ++ [r])%list
       /\ BoardApp.lastMove (BoardApp.app (BoardApp.clickSquare pg sq)) = Some r
       /\ BoardApp.board (BoardApp.clickSquare pg sq) = ChessBoard.initial.
Proof.
  unfold BoardApp.clickSquare, ChessBoard.handleSquareClick.
  destruct (same_square _ sq); [now left|].
  destruct (friendly _ _); [now left|].
  destruct (ChessBoard.selectedSquare (BoardApp.board pg)) as [s|]; [|now left].
  destruct (includes _ sq); [|now left].
  fold (Games.request s sq). simpl.
  destruct (pos_move (position (BoardApp.game (BoardApp.app pg)))
                     (Games.request s sq)) as [[p' r]|] eqn:Hmv.
  - right. exists s, p', r.
    destruct (board_makeMove_accepted _ _ _ _ Hmv) as (Hg & Hm & Hl).
    repeat (split; [first [reflexivity | assumption]|]). reflexivity.
  - left. now apply board_makeMove_rejected.
Qed.

(** X12: once [gameEnded] is raised, it stays raised through any
    sequence of clicks on squares and on the undo button; only "New
    Game" lowers it. *)
Theorem gameEnded_stays_raised (pg : BoardApp.Page) (es : list BoardApp.Event) :
  forallb BoardApp.keeps_game es = true ->
  BoardApp.gameEnded (BoardApp.app pg) = true ->
  BoardApp.gameEnded (BoardApp.app (fold_left BoardApp.step es pg)) = true.
Proof.
  revert pg. induction es as [|e es IH]; intros pg Hk H; simpl; [assumption|].
  simpl in Hk. apply andb_true_iff in Hk as [He Hk].
  apply IH; [assumption|]. now apply step_gameEnded.
Qed.

Lemma length_removelast_succ {A : Type} (l : list A) :
  l <> [] -> List.length (removelast l) + 1 = List.length l.
Proof.
  intros H. destruct (exists_last H) as (l' & a & ->).
  rewrite removelast_last, List.length_app. reflexivity.
Qed.

(** X13: in every page the user can reach, a click on the enabled undo
    button runs [undoMove], which drops the last entry of the history
    and leaves the game (hence the position on the board) and the
    board's selection exactly as they were. *)
Theorem undo_shortens_history_only (es : list BoardApp.Event) :
  let pg := BoardApp.run es in
  BoardApp.undoDisabled (BoardApp.app pg) = false ->
  snd (BoardApp.clickUndo pg) = true
  /\ BoardApp.game (BoardApp.app (fst (BoardApp.clickUndo pg)))
     = BoardApp.game (BoardApp.app pg)
  /\ BoardApp.moveHistory (BoardApp.app (fst (BoardApp.clickUndo pg)))
     = removelast (BoardApp.moveHistory (BoardApp.app pg))
  /\ List.length (BoardApp.moveHistory (BoardApp.app (fst (BoardApp.clickUndo pg)))) + 1
     = List.length (BoardApp.moveHistory (BoardApp.app pg))
  /\ BoardApp.board (fst (BoardApp.clickUndo pg)) = BoardApp.board pg.
Proof.
  cbv zeta. intros Hen. unfold BoardApp.clickUndo. rewrite Hen. simpl.
  rewrite (undoMove_fresh _ (run_fresh es)), undoMove_moveHistory.
  repeat (split; [reflexivity|]). split; [|reflexivity].
  apply length_removelast_succ. intros Hnil.
  unfold BoardApp.undoDisabled in Hen. rewrite Hnil in Hen. discriminate.
Qed.

Lemma updateStatus_status_position (g g2 : Chess) (sh sh2 : BoardApp.State) :
  position g = position g2 ->
  BoardApp.status (BoardApp.updateStatus g sh)
  = BoardApp.status (BoardApp.updateStatus g2 sh2).
Proof.
  intros H. unfold BoardApp.updateStatus, game_isCheckmate, game_isDraw,
    game_inCheck, game_turn. rewrite H.
  destruct (pos_isCheckmate (position g2)); [reflexivity|].
  now destruct (pos_isDraw (position g2)).
Qed.

Lemma status_current_step (pg : BoardApp.Page) (e : BoardApp.Event) :
  Measures.status_current BoardApp.initial ->
  Measures.status_current (BoardApp.app pg) ->
  Measures.status_current (BoardApp.app (BoardApp.step pg e)).
Proof.
  unfold Measures.status_current. intros H0 H. destruct e as [sq| |]; simpl.
  - unfold BoardApp.clickSquare.
    destruct (ChessBoard.handleSquareClick _ _ sq) as [bd [move|]]; simpl;
      [|assumption].
    unfold BoardApp.makeMove.
    destruct (game_move (BoardApp.game (BoardApp.app pg)) move) as [[g' r]|];
      [|assumption].
    rewrite updateStatus_game. simpl. now apply updateStatus_status_position.
  - unfold BoardApp.clickUndo. destruct (BoardApp.undoDisabled _); simpl;
      [assumption|].
    unfold BoardApp.undoMove. rewrite updateStatus_game. simpl.
    now apply updateStatus_status_position.
  - exact H0.
Qed.

(** X14: if the engine's initial position is White's to move and is
    neither mate, draw nor check, the status line of every page the
    user can reach is the one [updateStatus] computes from the game the
    page shows: it is never out of date. *)
Theorem status_line_is_current (es : list BoardApp.Event) :
  pos_turn start_position = White ->
  pos_isCheckmate start_position = false ->
  pos_isDraw start_position = false ->
  pos_inCheck start_position = false ->
  let sh := BoardApp.app (BoardApp.run es) in
  BoardApp.status sh
  = BoardApp.status (BoardApp.updateStatus (BoardApp.game sh) sh).
Proof.
  intros Ht Hm Hd Hc. cbv zeta.
  assert (H0 : Measures.status_current BoardApp.initial).
  { unfold Measures.status_current, BoardApp.updateStatus, game_isCheckmate,
      game_isDraw, game_inCheck, game_turn. simpl.
    now rewrite Ht, Hm, Hd, Hc. }
  change (Measures.status_current (BoardApp.app (BoardApp.run es))).
  unfold BoardApp.run. induction es as [|e es IH] using rev_ind; simpl.
  - exact H0.
  - rewrite fold_left_app. simpl. now apply status_current_step.
Qed.

Lemma says_game_over_updateStatus (g : Chess) (sh : BoardApp.State) :
  Measures.says_game_over (BoardApp.updateStatus g sh) = true ->
  BoardApp.gameEnded (BoardApp.updateStatus g sh) = true.
Proof.
  unfold Measures.says_game_over, BoardApp.updateStatus.
  destruct (game_isCheckmate g); [reflexivity|].
  destruct (game_isDraw g); [reflexivity|]. simpl.
  destruct (game_turn g), (game_inCheck g); simpl; discriminate.
Qed.

Lemma says_game_over_step (pg : BoardApp.Page) (e : BoardApp.Event) :
  (Measures.says_game_over (BoardApp.app pg) = true ->
   BoardApp.gameEnded (BoardApp.app pg) = true) ->
  Measures.says_game_over (BoardApp.app (BoardApp.step pg e)) = true ->
  BoardApp.gameEnded (BoardApp.app (BoardApp.step pg e)) = true.
Proof.
  intros H. destruct e as [sq| |]; simpl.
  - unfold BoardApp.clickSquare.
    destruct (ChessBoard.handleSquareClick _ _ sq) as [bd [move|]]; simpl;
      [|assumption].
    unfold BoardApp.makeMove.
    destruct (game_move (BoardApp.game (BoardApp.app pg)) move) as [[g' r]|];
      [apply says_game_over_updateStatus | assumption].
  - unfold BoardApp.clickUndo. destruct (BoardApp.undoDisabled _); simpl;
      [assumption | apply says_game_over_updateStatus].
  - discriminate.
Qed.

(** X15: in every page the user can reach, a status line that starts
    with "Game Over" comes with [gameEnded] raised. *)
Theorem game_over_text_means_flag (es : list BoardApp.Event) :
  String.prefix "Game Over" (BoardApp.status (BoardApp.app (BoardApp.run es)))
  = true ->
  BoardApp.gameEnded (BoardApp.app (BoardApp.run es)) = true.
Proof.
  change (Measures.says_game_over (BoardApp.app (BoardApp.run es)) = true ->
          BoardApp.gameEnded (BoardApp.app (BoardApp.run es)) = true).
  unfold BoardApp.run. induction es as [|e es IH] using rev_ind; simpl.
  - discriminate.
  - rewrite fold_left_app. simpl. now apply says_game_over_step.
Qed.
End ShellRuns.

(** * Properties of what is drawn *)

(** Quotient and remainder of [n] by two, as facts for [lia]. *)
Ltac halves n :=
  pose proof (Nat.div_mod_eq n 2);
  pose proof (Nat.mod_upper_bound n 2 ltac:(discriminate)).

Section HistoryViews.
Context {E : RulesEngine}.

Lemma firstn_succ_nth {A : Type} (l : list A) (n : nat) :
  firstn (S n) l
  = firstn n l ++ match nth_error l n with Some x => [x] | None => [] end.
Proof.
  revert l. induction n as [|n IH]; intros [|a l]; simpl; try reflexivity.
  now rewrite <- IH.
Qed.

Lemma shown_row (h : list Move) (i : nat) :
  HistoryPanel.shown (HistoryPanel.row h i)
  = map move_san
        (match nth_error h (2 * i) with Some x => [x] | None => [] end
         ++ match nth_error h (S (2 * i)) with Some x => [x] | None => [] end).
Proof.
  unfold HistoryPanel.shown, HistoryPanel.row. simpl HistoryPanel.first.
  simpl HistoryPanel.second.
  replace (i * 2 + 1) with (S (2 * i)) by lia.
  replace (i * 2) with (2 * i) by lia.
  rewrite map_app.
  destruct (nth_error h (2 * i)), (nth_error h (S (2 * i))); reflexivity.
Qed.

Lemma shown_rows_prefix (h : list Move) (c : nat) :
  flat_map HistoryPanel.shown (map (HistoryPanel.row h) (seq 0 c))
  = map move_san (firstn (2 * c) h).
Proof.
  induction c as [|c IH]; [reflexivity|].
  rewrite seq_S, map_app, flat_map_app, IH. simpl map at 2. simpl flat_map.
  rewrite app_nil_r, shown_row, <- map_app. f_equal.
  replace (2 * S c) with (S (S (2 * c))) by lia.
  now rewrite (firstn_succ_nth h (S (2 * c))), (firstn_succ_nth h (2 * c)),
    <- app_assoc.
Qed.

Lemma rows_nth (h : list Move) (i : nat) (r : HistoryPanel.Row) :
  nth_error (HistoryPanel.rows h) i = Some r ->
  i < Js.ceil_half (List.length h) /\ r = HistoryPanel.row h i.
Proof.
  unfold HistoryPanel.rows. rewrite nth_error_map, nth_error_seq.
  destruct (Nat.ltb_spec i (Js.ceil_half (List.length h))); simpl;
    [|discriminate].
  intros [= <-]. auto.
Qed.

(** X16: the two-column history panel shows every move of the history
    once and in order; it has one row for every two moves, rounded up,
    numbered from 1; every row has its first move, and a row lacks its
    second move only if it is the last row of a history of odd
    length. *)
Theorem history_rows_show_all_moves (h : list Move) :
  flat_map HistoryPanel.shown (HistoryPanel.rows h) = map move_san h
  /\ List.length (HistoryPanel.rows h) = (List.length h + 1) / 2
  /\ forall i r,
       nth_error (HistoryPanel.rows h) i = Some r ->
       HistoryPanel.number r = i + 1
       /\ HistoryPanel.first r <> None
       /\ (HistoryPanel.second r = None <-> 2 * i + 1 = List.length h).
Proof.
  split; [|split].
  - unfold HistoryPanel.rows. rewrite shown_rows_prefix, firstn_all2;
      [reflexivity|].
    unfold Js.ceil_half. halves (List.length h + 1). lia.
  - unfold HistoryPanel.rows. now rewrite length_map, length_seq.
  - intros i r Hr. apply rows_nth in Hr as [Hi ->].
    unfold Js.ceil_half in Hi. halves (List.length h + 1).
    unfold HistoryPanel.row. simpl.
    split; [reflexivity|]. split.
    + destruct (nth_error h (i * 2)) eqn:Hn; [discriminate|].
      apply nth_error_None in Hn. lia.
    + destruct (nth_error h (i * 2 + 1)) eqn:Hn; simpl.
      * split; [discriminate|]. intros Hl.
        assert (Hs : nth_error h (i * 2 + 1) <> None) by now rewrite Hn.
        apply nth_error_Some in Hs. lia.
      * apply nth_error_None in Hn. split; [lia | reflexivity].
Qed.

Lemma mapi_from_nth {A B : Type} (f : A -> nat -> B) (l : list A) :
  forall i0 k,
    nth_error (Js.mapi_from f l i0) k
    = option_map (fun x => f x (i0 + k)) (nth_error l k).
Proof.
  induction l as [|a l IH]; intros i0 [|k]; simpl; try reflexivity.
  - now rewrite Nat.add_0_r.
  - rewrite IH. now replace (S i0 + k) with (i0 + S k) by lia.
Qed.

(** X17: both history views number the moves alike.  The list of the
    stand-alone application shows move [k] (counted from 0) with the
    number [k / 2 + 1]; the panel of the shell shows it in the row with
    that number, in the first column if [k] is even and in the second
    if it is odd. *)
Theorem history_numbering_agrees
        (st : StandaloneApp.State) (h : list Move) (k : nat) :
  (forall e, nth_error (StandaloneView.historyEntries st) k = Some e ->
             fst e = k / 2 + 1
             /\ nth_error (StandaloneApp.moveHistory st) k = Some (snd e))
  /\ (forall m, nth_error h k = Some m ->
                exists r,
                  nth_error (HistoryPanel.rows h) (k / 2) = Some r
                  /\ HistoryPanel.number r = k / 2 + 1
                  /\ (if Nat.eqb (k mod 2) 0
                      then HistoryPanel.first r
                      else HistoryPanel.second r) = Some (move_san m)).
Proof.
  split.
  - intros e. unfold StandaloneView.historyEntries, Js.mapi.
    rewrite mapi_from_nth. simpl.
    destruct (nth_error (StandaloneApp.moveHistory st) k); simpl;
      [|discriminate].
    intros [= <-]. auto.
  - intros m Hm. exists (HistoryPanel.row h (k / 2)).
    assert (Hk : k < List.length h)
      by (apply nth_error_Some; now rewrite Hm).
    halves k. halves (List.length h + 1). split; [|split].
    + unfold HistoryPanel.rows. rewrite nth_error_map, nth_error_seq.
      destruct (Nat.ltb_spec (k / 2) (Js.ceil_half (List.length h)));
        [reflexivity|]. unfold Js.ceil_half in *. lia.
    + reflexivity.
    + unfold HistoryPanel.row.
      cbn [HistoryPanel.first HistoryPanel.second].
      destruct (Nat.eqb_spec (k mod 2) 0).
      * replace (k / 2 * 2) with k by lia. now rewrite Hm.
      * replace (k / 2 * 2 + 1) with k by lia. now rewrite Hm.
Qed.
End HistoryViews.

(** Case analysis on an index below a bound given as a numeral. *)
Ltac enum i n :=
  lazymatch n with
  | O => exfalso; lia
  | S ?m => destruct i as [|i]; [|enum i m]
  end.

Section BoardCells.

Lemma board_loop_ok (rows : list (list (option Piece))) :
  forall (is_ : list nat) (b : list BoardView.Cell),
    (forall i, In i is_ -> i < List.length rows) ->
    BoardView.board_loop rows is_ b
    = Some (b ++ flat_map (fun i => map (BoardView.cell_at (nth i rows []) i)
                                        (seq 0 8)) is_).
Proof.
  induction is_ as [|i is_ IH]; intros b H; simpl.
  - now rewrite app_nil_r.
  - rewrite (nth_error_nth' rows [] (H i (or_introl eq_refl))).
    rewrite IH by (intros k Hk; apply H; now right).
    now rewrite <- app_assoc.
Qed.

Lemma board_loop_short (rows : list (list (option Piece))) :
  forall (is_ : list nat) (b : list BoardView.Cell),
    (exists i, In i is_ /\ List.length rows <= i) ->
    BoardView.board_loop rows is_ b = None.
Proof.
  induction is_ as [|a is_ IH]; intros b (i & Hin & Hi); simpl.
  - destruct Hin.
  - destruct (nth_error rows a) eqn:Hn; [|reflexivity].
    destruct Hin as [->|Hin].
    + apply nth_error_None in Hi. congruence.
    + apply IH. eauto.
Qed.

Lemma map_flat_map {A B C : Type} (f : B -> C) (g : A -> list B) (l : list A) :
  map f (flat_map g l) = flat_map (fun x => map f (g x)) l.
Proof.
  induction l as [|a l IH]; simpl; [reflexivity|].
  now rewrite map_app, IH.
Qed.

Lemma names_by_index :
  flat_map (fun i => map (Js.squareName i) (seq 0 8)) (seq 0 8) = Squares.names.
Proof. vm_compute. reflexivity. Qed.

Lemma names_NoDup : NoDup Squares.names.
Proof.
  assert (H : nodup string_dec Squares.names = Squares.names)
    by (vm_compute; reflexivity).
  rewrite <- H. apply NoDup_nodup.
Qed.

(** X18: from eight rows or more the board component builds 64 cells,
    named a8 to h8 down to a1 to h1 whatever the rows hold, each name
    once; from fewer rows the loop fails on the missing row. *)
Theorem board_has_64_named_cells (rows : list (list (option Piece))) :
  (List.length rows < 8 -> BoardView.board rows = None)
  /\ (8 <= List.length rows ->
      exists cells,
        BoardView.board rows = Some cells
        /\ List.length cells = 64
        /\ map BoardView.square cells = Squares.names
        /\ NoDup (map BoardView.square cells)).
Proof.
  split.
  - intros H. apply board_loop_short. exists (List.length rows).
    split; [apply in_seq; lia | lia].
  - intros H. unfold BoardView.board. rewrite board_loop_ok.
    2:{ intros i Hi. apply in_seq in Hi. lia. }
    exists (flat_map (fun i => map (BoardView.cell_at (nth i rows []) i)
                                   (seq 0 8)) (seq 0 8)).
    split; [reflexivity|].
    assert (Hn : map BoardView.square
                   (flat_map (fun i => map (BoardView.cell_at (nth i rows []) i)
                                           (seq 0 8)) (seq 0 8))
                 = Squares.names).
    { rewrite map_flat_map, <- names_by_index. apply flat_map_ext.
      intros i. now rewrite map_map. }
    split; [|split].
    + rewrite <- (length_map BoardView.square), Hn. reflexivity.
    + exact Hn.
    + rewrite Hn. exact names_NoDup.
Qed.

(** X19: the name of the cell in row [i], column [j] is the chess.js
    name of file [j], rank [8 - i]: decoded the chess.js way it gives
    that file and rank back, and it is the name chess.js gives to
    them. *)
Theorem cell_name_round_trip (i j : nat) :
  i < 8 -> j < 8 ->
  Rules.coord_of_square (Js.squareName i j)
  = Some (Z.of_nat j, (7 - Z.of_nat i)%Z)
  /\ Rules.square_of_coord (Z.of_nat j, (7 - Z.of_nat i)%Z)
     = Js.squareName i j.
Proof.
  intros Hi Hj. enum i 8; enum j 8; split; reflexivity.
Qed.

(** X20: on the engine [Rules.engine], whose [board()] lists the ranks
    from 8 down to 1, every cell of the board component shows the piece
    that [game.get] returns for the cell's name: what is drawn on a
    cell is what a click on it looks at. *)
Theorem cells_show_what_get_returns (ps : Rules.Pos) :
  exists cells,
    BoardView.board (RulesBoard.board_rows ps) = Some cells
    /\ Forall (fun c => BoardView.piece c = Rules.get ps (BoardView.square c))
              cells.
Proof.
  unfold BoardView.board. rewrite board_loop_ok.
  2:{ intros i Hi. apply in_seq in Hi. simpl. lia. }
  exists (flat_map (fun i => map (BoardView.cell_at
                                    (nth i (RulesBoard.board_rows ps) []) i)
                                 (seq 0 8)) (seq 0 8)).
  split; [reflexivity|].
  apply Forall_forall. intros c Hc.
  apply in_flat_map in Hc as (i & Hi & Hc).
  apply in_map_iff in Hc as (j & <- & Hj).
  apply in_seq in Hi, Hj. destruct Hi as [_ Hi], Hj as [_ Hj]. simpl in Hi, Hj.
  enum i 8; enum j 8; reflexivity.
Qed.

Lemma succ_mod2 (n : nat) :
  Nat.eqb (S n mod 2) 0 = negb (Nat.eqb (n mod 2) 0).
Proof.
  halves n. halves (S n).
  destruct (Nat.eqb_spec (S n mod 2) 0), (Nat.eqb_spec (n mod 2) 0);
    simpl; try reflexivity; lia.
Qed.

(** X21: the cell colours form a chessboard: the cell to the right
    and the cell below always have the other colour, the bottom-left
    cell (a1) is dark, and the board component's [dark] is the
    stand-alone application's [isDark]. *)
Theorem cell_colours_alternate
        (E : RulesEngine) (st : StandaloneApp.State)
        (row row' : list (option Piece)) (pc : option Piece) (i j : nat) :
  BoardView.color (BoardView.cell_at row i (S j))
  <> BoardView.color (BoardView.cell_at row' i j)
  /\ BoardView.color (BoardView.cell_at row (S i) j)
     <> BoardView.color (BoardView.cell_at row' i j)
  /\ BoardView.color (BoardView.cell_at row 7 0) = BoardView.dark
  /\ (BoardView.color (BoardView.cell_at row i j) = BoardView.dark
      <-> StandaloneView.isDark (StandaloneView.cell_view st i pc j) = true).
Proof.
  unfold BoardView.cell_at, StandaloneView.cell_view.
  cbn [BoardView.color StandaloneView.isDark].
  rewrite Nat.add_succ_r, succ_mod2. change (S i + j) with (S (i + j)).
  rewrite succ_mod2. halves (i + j).
  destruct (Nat.eqb_spec ((i + j) mod 2) 0), (Nat.eqb_spec ((i + j) mod 2) 1);
    simpl; repeat split; try discriminate; try reflexivity; try lia.
Qed.

(** X22: the board component labels the ranks on the cells of file a
    and the files on the cells of rank 1, and nowhere else; each label
    is the cell's own rank digit or file letter. *)
Theorem edge_labels (i j : nat) :
  i < 8 -> j < 8 ->
  BoardView.rankLabel (Js.squareName i j)
  = (if Nat.eqb j 0 then Some (ascii_of_nat (56 - i)) else None)
  /\ BoardView.fileLabel (Js.squareName i j)
     = (if Nat.eqb i 7 then Some (ascii_of_nat (97 + j)) else None).
Proof.
  intros Hi Hj. enum i 8; enum j 8; split; reflexivity.
Qed.

(** X23: every piece has an image and no two pieces share one, in the
    table [PIECES_SVG] of the stand-alone application and in
    [getPieceIcon] of the board component. *)
Theorem every_piece_has_its_own_image (pc pc' : Piece) :
  (exists url, StandaloneView.image pc = Some url)
  /\ (StandaloneView.image pc = StandaloneView.image pc' -> pc = pc')
  /\ (BoardView.icon pc = BoardView.icon pc' -> pc = pc').
Proof.
  destruct pc as [t c], pc' as [t' c'].
  split; [destruct t, c; eexists; vm_compute; reflexivity|].
  split; intros H; destruct t, c, t', c';
    first [reflexivity | vm_compute in H; discriminate H].
Qed.
End BoardCells.

Section Highlights.
Context {E : RulesEngine}.

Lemma mapi_from_In {A B : Type} (f : A -> nat -> B) (l : list A) :
  forall i0 y, In y (Js.mapi_from f l i0) -> exists x k, In x l /\ y = f x k.
Proof.
  induction l as [|a l IH]; intros i0 y; simpl; [tauto|].
  intros [<-|H].
  - exists a, i0. auto.
  - destruct (IH _ _ H) as (x & k & Hx & ->). exists x, k. auto.
Qed.

Lemma mapi_from_project {A B C : Type}
      (f : A -> nat -> B) (g : B -> C) (h : nat -> C) (l : list A) :
  (forall x k, In x l -> g (f x k) = h k) ->
  forall i0, map g (Js.mapi_from f l i0) = map h (seq i0 (List.length l)).
Proof.
  induction l as [|a l IH]; intros H i0; simpl; [reflexivity|].
  rewrite (H a i0 (or_introl eq_refl)), IH; [reflexivity|].
  intros x k Hx. apply H. now right.
Qed.

Lemma count_unnamed {C : Type} (f : C -> string) (l : list C) (s : string) :
  ~ In s (map f l) -> filter (fun c => String.eqb s (f c)) l = [].
Proof.
  induction l as [|a l IH]; simpl; [reflexivity|]. intros H.
  destruct (String.eqb_spec s (f a)) as [->|_]; [tauto|].
  apply IH. tauto.
Qed.

Lemma count_named {C : Type} (f : C -> string) (l : list C) (s : string) :
  NoDup (map f l) -> In s (map f l) ->
  List.length (filter (fun c => String.eqb s (f c)) l) = 1.
Proof.
  induction l as [|a l IH]; simpl; [tauto|]. intros Hnd Hin.
  apply NoDup_cons_iff in Hnd as [Hna Hnd].
  destruct (String.eqb_spec s (f a)) as [->|Hne]; simpl.
  - now rewrite (count_unnamed f l _ Hna).
  - destruct Hin as [Heq|Hin]; [congruence | now apply IH].
Qed.

Lemma count_either {C : Type} (p q : C -> bool) (l : list C) :
  (forall c, p c = true -> q c = false) ->
  List.length (filter (fun c => p c || q c) l)
  = List.length (filter p l) + List.length (filter q l).
Proof.
  intros H. induction l as [|a l IH]; simpl; [reflexivity|].
  destruct (p a) eqn:Hp; simpl.
  - rewrite (H a Hp), IH. reflexivity.
  - destruct (q a); simpl; rewrite IH; lia.
Qed.

Lemma filter_through_map {A B : Type} (f : A -> B) (p : B -> bool) (l : list A) :
  map f (filter (fun x => p (f x)) l) = filter p (map f l).
Proof.
  induction l as [|a l IH]; simpl; [reflexivity|].
  destruct (p (f a)); simpl; now rewrite IH.
Qed.

Lemma cells_names (st : StandaloneApp.State) (board : list (list (option Piece))) :
  List.length board = 8 ->
  Forall (fun row => List.length row = 8) board ->
  map StandaloneView.squareName (List.concat (StandaloneView.cells st board))
  = Squares.names.
Proof.
  intros Hb Hrows. rewrite concat_map. unfold StandaloneView.cells, Js.mapi.
  rewrite (mapi_from_project _ (map StandaloneView.squareName)
             (fun i => map (Js.squareName i) (seq 0 8))).
  - rewrite Hb, <- flat_map_concat_map. apply names_by_index.
  - intros row k Hrow. rewrite Forall_forall in Hrows.
    rewrite (mapi_from_project _ StandaloneView.squareName (Js.squareName k));
      [now rewrite (Hrows row Hrow) | reflexivity].
Qed.

Lemma cells_flags (st : StandaloneApp.State) (board : list (list (option Piece)))
      (c : StandaloneView.CellView) :
  In c (List.concat (StandaloneView.cells st board)) ->
  StandaloneView.isSelected c
  = same_square (StandaloneApp.selectedSquare st) (StandaloneView.squareName c)
  /\ StandaloneView.isValidMove c
     = includes (StandaloneApp.validMoves st) (StandaloneView.squareName c)
  /\ StandaloneView.isLastMove c
     = match StandaloneApp.lastMove st with
       | Some (a, b) => String.eqb a (StandaloneView.squareName c)
                        || String.eqb b (StandaloneView.squareName c)
       | None => false
       end.
Proof.
  intros H. apply in_concat in H as (l & Hl & Hc).
  unfold StandaloneView.cells, Js.mapi in Hl.
  apply mapi_from_In in Hl as (row & i & _ & ->).
  apply mapi_from_In in Hc as (pc & j & _ & ->).
  repeat split.
Qed.

(** X24: on a board of eight rows of eight the stand-alone application
    draws the 64 cells a8 to h1; exactly one cell is ringed when a
    square of the board is selected and none when nothing is; exactly
    two cells carry the last-move tint after a move between two
    squares of the board; and the cells with a move marker are exactly
    the squares of the board among [validMoves]. *)
Theorem highlighted_cells_counted
        (st : StandaloneApp.State) (board : list (list (option Piece))) :
  List.length board = 8 ->
  Forall (fun row => List.length row = 8) board ->
  let cs := List.concat (StandaloneView.cells st board) in
  map StandaloneView.squareName cs = Squares.names
  /\ (forall s, StandaloneApp.selectedSquare st = Some s ->
                In s Squares.names ->
                List.length (filter StandaloneView.isSelected cs) = 1)
  /\ (StandaloneApp.selectedSquare st = None ->
      filter StandaloneView.isSelected cs = [])
  /\ (forall a b, StandaloneApp.lastMove st = Some (a, b) -> a <> b ->
                  In a Squares.names -> In b Squares.names ->
                  List.length (filter StandaloneView.isLastMove cs) = 2)
  /\ map StandaloneView.squareName (filter StandaloneView.isValidMove cs)
     = filter (includes (StandaloneApp.validMoves st)) Squares.names.
Proof.
  intros Hb Hrows. cbv zeta.
  pose proof (cells_names st board Hb Hrows) as Hn.
  pose proof (cells_flags st board) as Hf.
  generalize dependent (List.concat (StandaloneView.cells st board)).
  intros cs Hn Hf.
  assert (Hnd : NoDup (map StandaloneView.squareName cs))
    by (rewrite Hn; exact names_NoDup).
  split; [exact Hn|]. split; [|split; [|split]].
  - intros s Hs Hin.
    rewrite (filter_ext_in _ (fun c => String.eqb s (StandaloneView.squareName c))).
    + rewrite <- Hn in Hin.
      exact (count_named StandaloneView.squareName cs s Hnd Hin).
    + intros c Hc. destruct (Hf c Hc) as (-> & _). now rewrite Hs.
  - intros Hs.
    rewrite (filter_ext_in _ (fun _ => false)).
    + clear. induction cs; simpl; auto.
    + intros c Hc. destruct (Hf c Hc) as (-> & _). now rewrite Hs.
  - intros a b Hl Hab Ha Hb'.
    rewrite (filter_ext_in _
               (fun c => String.eqb a (StandaloneView.squareName c)
                         || String.eqb b (StandaloneView.squareName c))).
    + rewrite count_either.
      * rewrite <- Hn in Ha, Hb'.
        now rewrite (count_named StandaloneView.squareName cs a Hnd Ha),
          (count_named StandaloneView.squareName cs b Hnd Hb').
      * intros c Hc. apply String.eqb_eq in Hc. subst a.
        now apply String.eqb_neq, not_eq_sym.
    + intros c Hc. destruct (Hf c Hc) as (_ & _ & ->). now rewrite Hl.
  - rewrite (filter_ext_in _
               (fun c => includes (StandaloneApp.validMoves st)
                                  (StandaloneView.squareName c))).
    + now rewrite filter_through_map, Hn.
    + intros c Hc. now destruct (Hf c Hc) as (_ & -> & _).
Qed.
End Highlights.

(** * The further properties on real games *)
Section FurtherOnTheBoard.
Local Open Scope string_scope.

(** With e2 selected, a second click on e2 deselects. *)
Lemma click_on_selected_square_witness :
  let st := Games.standalone_after ["e2"] in
  let pg := Games.page_after ["e2"] in
  StandaloneApp.selectedSquare st = Some "e2"
  /\ ChessBoard.selectedSquare (BoardApp.board pg) = Some "e2"
  /\ snd (StandaloneApp.handleSquareClick st "e2") = None
  /\ StandaloneApp.selectedSquare (fst (StandaloneApp.handleSquareClick st "e2"))
     = None
  /\ StandaloneApp.validMoves (fst (StandaloneApp.handleSquareClick st "e2")) = []
  /\ BoardApp.board (BoardApp.clickSquare pg "e2") = ChessBoard.initial
  /\ BoardApp.app (BoardApp.clickSquare pg "e2") = BoardApp.app pg.
Proof.
  cbv zeta.
  assert (A1 : StandaloneApp.isGameOver (Games.standalone_after ["e2"]) = false)
    by (vm_compute; reflexivity).
  assert (A2 : StandaloneApp.selectedSquare (Games.standalone_after ["e2"])
               = Some "e2") by (vm_compute; reflexivity).
  assert (A3 : ChessBoard.selectedSquare (BoardApp.board (Games.page_after ["e2"]))
               = Some "e2") by (vm_compute; reflexivity).
  pose proof (click_on_selected_square_deselects _ _ _ A1 A2 A3) as (H1 & H2 & H3).
  split; [exact A2|]. split; [exact A3|].
  split; [exact (f_equal snd H1)|].
  split; [exact (f_equal (fun x => StandaloneApp.selectedSquare (fst x)) H1)|].
  split; [exact H2|].
  split; [exact (f_equal BoardApp.board H3) | exact (f_equal BoardApp.app H3)].
Defined.

(** At the start a click on the empty square e5 does nothing. *)
Lemma idle_click_elsewhere_witness :
  let st := Games.standalone_after [] in
  let pg := Games.page_after [] in
  friendly (game_get (StandaloneApp.game st) "e5") (StandaloneApp.turn st) = false
  /\ StandaloneApp.handleSquareClick st "e5" = (st, None)
  /\ BoardApp.clickSquare pg "e5"
     = {| BoardApp.app := BoardApp.app pg;
          BoardApp.board := {| ChessBoard.selectedSquare := None;
                               ChessBoard.hintSquares := [] |} |}.
Proof.
  cbv zeta.
  assert (A1 : StandaloneApp.selectedSquare (Games.standalone_after []) = None)
    by reflexivity.
  assert (A2 : friendly
                 (game_get (StandaloneApp.game (Games.standalone_after [])) "e5")
                 (StandaloneApp.turn (Games.standalone_after [])) = false)
    by (vm_compute; reflexivity).
  assert (A3 : ChessBoard.selectedSquare (BoardApp.board (Games.page_after []))
               = None) by reflexivity.
  assert (A4 : friendly
                 (game_get (BoardApp.game (BoardApp.app (Games.page_after []))) "e5")
                 (game_turn (BoardApp.game (BoardApp.app (Games.page_after []))))
               = false) by (vm_compute; reflexivity).
  split; [exact A2|].
  exact (idle_click_elsewhere_ignored _ _ _ A1 A2 A3 A4).
Defined.

(** At the start a click on Black's pawn on e7 selects nothing. *)
Lemma click_selects_only_own_witness :
  let st := Games.standalone_after [] in
  StandaloneApp.isGameOver st = false
  /\ (StandaloneApp.selectedSquare (fst (StandaloneApp.handleSquareClick st "e7"))
      = None
      \/ (StandaloneApp.selectedSquare
            (fst (StandaloneApp.handleSquareClick st "e7")) = Some "e7"
          /\ friendly (game_get (StandaloneApp.game st) "e7")
                      (StandaloneApp.turn st) = true)).
Proof.
  cbv zeta.
  assert (A1 : StandaloneApp.isGameOver (Games.standalone_after []) = false)
    by (vm_compute; reflexivity).
  split; [exact A1|].
  exact (proj1 (click_selects_only_clicked_own_piece
                  (Games.standalone_after [])
                  (BoardApp.game (BoardApp.app (Games.page_after [])))
                  ChessBoard.initial "e7" A1)).
Defined.

(** With e2 selected, the click on e4 sends the request e2-e4. *)
Lemma standalone_request_witness :
  let st := Games.standalone_after ["e2"] in
  snd (StandaloneApp.handleSquareClick st "e4") = Some (Games.request "e2" "e4")
  /\ StandaloneApp.isGameOver st = false
  /\ StandaloneApp.selectedSquare st = Some "e2".
Proof.
  cbv zeta.
  assert (A1 : snd (StandaloneApp.handleSquareClick
                      (Games.standalone_after ["e2"]) "e4")
               = Some (Games.request "e2" "e4")) by (vm_compute; reflexivity).
  pose proof (standalone_request_discipline _ _ _ A1) as (H1 & H2 & _).
  split; [exact A1|]. split; [exact H1 | exact H2].
Defined.


(** After the fool's mate the stand-alone application ignores the
    clicks on e1 and e2. *)
Lemma standalone_frozen_witness :
  let st := Games.standalone_after Games.fools_mate in
  StandaloneApp.isGameOver st = true
  /\ fold_left StandaloneApp.step (map StandaloneApp.Click ["e1"; "e2"]) st = st.
Proof.
  cbv zeta.
  assert (A1 : StandaloneApp.isGameOver (Games.standalone_after Games.fools_mate)
               = true) by (vm_compute; reflexivity).
  split; [exact A1|].
  exact (standalone_frozen_when_over _ ["e1"; "e2"] A1).
Defined.

(** After the fool's mate, undo and a click on e1 leave [gameEnded]
    raised. *)
Lemma gameEnded_stays_raised_witness :
  let pg := Games.page_after Games.fools_mate in
  BoardApp.gameEnded (BoardApp.app pg) = true
  /\ BoardApp.gameEnded
       (BoardApp.app (fold_left BoardApp.step
                                [BoardApp.Undo; BoardApp.Click "e1"] pg)) = true.
Proof.
  cbv zeta.
  assert (A1 : forallb BoardApp.keeps_game [BoardApp.Undo; BoardApp.Click "e1"]
               = true) by reflexivity.
  assert (A2 : BoardApp.gameEnded (BoardApp.app (Games.page_after Games.fools_mate))
               = true) by (vm_compute; reflexivity).
  split; [exact A2|].
  exact (gameEnded_stays_raised _ _ A1 A2).
Defined.

(** After 1. e4 the undo button empties the history and keeps the
    game. *)
Lemma undo_shortens_history_witness :
  let pg := BoardApp.run (E := Rules.engine)
              [BoardApp.Click "e2"; BoardApp.Click "e4"] in
  BoardApp.undoDisabled (BoardApp.app pg) = false
  /\ snd (BoardApp.clickUndo pg) = true
  /\ BoardApp.game (BoardApp.app (fst (BoardApp.clickUndo pg)))
     = BoardApp.game (BoardApp.app pg)
  /\ List.length (BoardApp.moveHistory (BoardApp.app (fst (BoardApp.clickUndo pg))))
     = 0.
Proof.
  cbv zeta.
  assert (A1 : BoardApp.undoDisabled
                 (BoardApp.app (BoardApp.run (E := Rules.engine)
                                  [BoardApp.Click "e2"; BoardApp.Click "e4"]))
               = false) by (vm_compute; reflexivity).
  pose proof (undo_shortens_history_only
                (E := Rules.engine)
                [BoardApp.Click "e2"; BoardApp.Click "e4"]) as H.
  cbv zeta in H. destruct (H A1) as (H1 & H2 & _ & _ & _).
  split; [exact A1|]. split; [exact H1|]. split; [exact H2|].
  vm_compute. reflexivity.
Defined.

(** After 1. e4 the status line reads "Black to move", which is what
    [updateStatus] computes from the game shown. *)
Lemma status_line_witness :
  let sh := BoardApp.app (Games.page_after ["e2"; "e4"]) in
  BoardApp.status sh = "Black to move"
  /\ BoardApp.status sh
     = BoardApp.status (BoardApp.updateStatus (BoardApp.game sh) sh).
Proof.
  cbv zeta. split; [vm_compute; reflexivity|].
  apply (status_line_is_current (E := Rules.engine)
           (map BoardApp.Click ["e2"; "e4"]));
    vm_compute; reflexivity.
Defined.

(** After the fool's mate the status line starts with "Game Over" and
    [gameEnded] is raised. *)
Lemma game_over_text_witness :
  let sh := BoardApp.app (Games.page_after Games.fools_mate) in
  String.prefix "Game Over" (BoardApp.status sh) = true
  /\ BoardApp.gameEnded sh = true.
Proof.
  cbv zeta.
  assert (A1 : String.prefix "Game Over"
                 (BoardApp.status (BoardApp.app (Games.page_after Games.fools_mate)))
               = true) by (vm_compute; reflexivity).
  split; [exact A1|].
  exact (game_over_text_means_flag
           (E := Rules.engine) (map BoardApp.Click Games.fools_mate) A1).
Defined.

(** The cell in the last row, fifth column is named e1 and decodes to
    file 4, rank 0. *)
Lemma cell_name_round_trip_witness :
  Js.squareName 7 4 = "e1"
  /\ Rules.coord_of_square (Js.squareName 7 4) = Some (4, 0)%Z
  /\ Rules.square_of_coord (4, 0)%Z = Js.squareName 7 4.
Proof.
  split; [reflexivity|].
  apply (cell_name_round_trip 7 4); lia.
Defined.

(** The bottom-left cell carries both labels. *)
Lemma edge_labels_witness :
  BoardView.rankLabel (Js.squareName 7 0) = Some "1"%char
  /\ BoardView.fileLabel (Js.squareName 7 0) = Some "a"%char.
Proof.
  apply (edge_labels 7 0); lia.
Defined.

(** With e2 selected at the start exactly one of the 64 cells is
    ringed. *)
Lemma highlighted_cells_witness :
  let st := Games.standalone_after ["e2"] in
  let cs := List.concat (StandaloneView.cells
                           st (RulesBoard.board_rows Rules.start)) in
  map StandaloneView.squareName cs = Squares.names
  /\ List.length (filter StandaloneView.isSelected cs) = 1.
Proof.
  cbv zeta.
  assert (A1 : List.length (RulesBoard.board_rows Rules.start) = 8)
    by reflexivity.
  assert (A2 : Forall (fun row : list (option Piece) => List.length row = 8)
                      (RulesBoard.board_rows Rules.start))
    by (repeat constructor).
  assert (A3 : StandaloneApp.selectedSquare (Games.standalone_after ["e2"])
               = Some "e2") by (vm_compute; reflexivity).
  assert (A4 : In "e2" Squares.names)
    by (apply includes_In; vm_compute; reflexivity).
  pose proof (highlighted_cells_counted
                (Games.standalone_after ["e2"])
                (RulesBoard.board_rows Rules.start) A1 A2) as H.
  cbv zeta in H. destruct H as (H1 & H2 & _).
  split; [exact H1 | exact (H2 "e2" A3 A4)].
Defined.

(** X25: "New Game" in the board application resets the shell but not
    the board component: after 1. e4, a click on e7 and "New Game", the
    game is the initial one with White to move and an empty history,
    while the board still shows Black's pawn on e7 as selected, with
    its hints e6 and e5. *)
Theorem new_game_keeps_board_selection :
  (forall (E : RulesEngine) (pg : BoardApp.Page),
      BoardApp.board (BoardApp.clickNewGame pg) = BoardApp.board pg
      /\ BoardApp.app (BoardApp.clickNewGame pg) = BoardApp.initial)
  /\ let pg := BoardApp.run (E := Rules.engine)
                 [BoardApp.Click "e2"; BoardApp.Click "e4";
                  BoardApp.Click "e7"; BoardApp.NewGame] in
     BoardApp.moveHistory (BoardApp.app pg) = []
     /\ fen (BoardApp.game (BoardApp.app pg)) = Rules.start
     /\ game_turn (BoardApp.game (BoardApp.app pg)) = White
     /\ BoardApp.board pg
        = {| ChessBoard.selectedSquare := Some "e7";
             ChessBoard.hintSquares := ["e6"; "e5"] |}
     /\ friendly (game_get (BoardApp.game (BoardApp.app pg)) "e7")
                 (game_turn (BoardApp.game (BoardApp.app pg))) = false.
Proof.
  split; [intros E pg; split; reflexivity|].
  cbv zeta. do 4 (split; [vm_compute; reflexivity|]). vm_compute. reflexivity.
Qed.
End FurtherOnTheBoard.

(** * Highlights of the board component *)
Section BoardHighlights.
Local Open Scope string_scope.

Lemma board_cells_names (rows : list (list (option Piece)))
      (cells : list BoardView.Cell) :
  BoardView.board rows = Some cells ->
  map BoardView.square cells = Squares.names.
Proof.
  unfold BoardView.board. intros H.
  destruct (Nat.lt_ge_cases (List.length rows) 8) as [Hlt|Hge].
  - rewrite board_loop_short in H; [discriminate|].
    exists (List.length rows). split; [apply in_seq; lia | lia].
  - assert (Hc : cells
                 = flat_map (fun i => map (BoardView.cell_at (nth i rows []) i)
                                          (seq 0 8)) (seq 0 8)).
    { rewrite board_loop_ok in H.
      2:{ intros i Hi. apply in_seq in Hi. lia. }
      injection H as H. symmetry. exact H. }
    subst cells.
    rewrite map_flat_map, <- names_by_index. apply flat_map_ext.
    intros i. now rewrite map_map.
Qed.

(** X26: on the cells the board component builds, exactly one cell is
    marked selected when a square of the board is selected and none
    when nothing is; the cells with a hint mark are exactly the squares
    of the board among [hintSquares]; and exactly two cells carry the
    last-move tint when the [lastMove] prop joins two different squares
    of the board. *)
Theorem board_highlights_counted
        (rows : list (list (option Piece))) (cells : list BoardView.Cell)
        (st : ChessBoard.State) (lastMove : option Move) :
  BoardView.board rows = Some cells ->
  (forall s, ChessBoard.selectedSquare st = Some s -> In s Squares.names ->
             List.length (filter (fun c => BoardView.isSelected st (BoardView.square c))
                                 cells) = 1)
  /\ (ChessBoard.selectedSquare st = None ->
      filter (fun c => BoardView.isSelected st (BoardView.square c)) cells = [])
  /\ map BoardView.square
         (filter (fun c => BoardView.isHint st (BoardView.square c)) cells)
     = filter (includes (ChessBoard.hintSquares st)) Squares.names
  /\ (forall m, lastMove = Some m -> move_from m <> move_to m ->
                In (move_from m) Squares.names -> In (move_to m) Squares.names ->
                List.length
                  (filter (fun c => BoardView.isLastMove lastMove (BoardView.square c))
                          cells) = 2).
Proof.
  intros Hb. pose proof (board_cells_names rows cells Hb) as Hn.
  assert (Hnd : NoDup (map BoardView.square cells))
    by (rewrite Hn; exact names_NoDup).
  split; [|split; [|split]].
  - intros s Hs Hin. unfold BoardView.isSelected. rewrite Hs. simpl.
    rewrite <- Hn in Hin.
    exact (count_named BoardView.square cells s Hnd Hin).
  - intros Hs. unfold BoardView.isSelected. rewrite Hs. simpl.
    clear. induction cells; simpl; auto.
  - unfold BoardView.isHint.
    now rewrite (filter_through_map BoardView.square
                   (includes (ChessBoard.hintSquares st))), Hn.
  - intros m -> Hne Ha Hb'. unfold BoardView.isLastMove.
    rewrite <- Hn in Ha, Hb'.
    rewrite (count_either
               (fun c => String.eqb (move_from m) (BoardView.square c))
               (fun c => String.eqb (move_to m) (BoardView.square c))).
    + now rewrite (count_named BoardView.square cells _ Hnd Ha),
        (count_named BoardView.square cells _ Hnd Hb').
    + intros c Hc. apply String.eqb_eq in Hc. rewrite <- Hc.
      now apply String.eqb_neq, not_eq_sym.
Qed.

(** With e2 selected at the start, one cell is marked selected and the
    hint marks are on e4 and e3. *)
Lemma board_highlights_witness :
  let st := BoardApp.board (Games.page_after ["e2"]) in
  exists cells,
    BoardView.board (RulesBoard.board_rows Rules.start) = Some cells
    /\ List.length (filter (fun c => BoardView.isSelected st (BoardView.square c))
                           cells) = 1
    /\ map BoardView.square
           (filter (fun c => BoardView.isHint st (BoardView.square c)) cells)
       = ["e4"; "e3"].
Proof.
  cbv zeta.
  destruct (BoardView.board (RulesBoard.board_rows Rules.start))
    as [cells|] eqn:Hb; [|vm_compute in Hb; discriminate Hb].
  exists cells. split; [reflexivity|].
  assert (A1 : ChessBoard.selectedSquare (BoardApp.board (Games.page_after ["e2"]))
               = Some "e2") by (vm_compute; reflexivity).
  assert (A2 : In "e2" Squares.names)
    by (apply includes_In; vm_compute; reflexivity).
  pose proof (board_highlights_counted
                _ _ (BoardApp.board (Games.page_after ["e2"])) None Hb)
    as (H1 & _ & H3 & _).
  split; [exact (H1 "e2" A1 A2)|].
  etransitivity; [exact H3 | vm_compute; reflexivity].
Defined.
End BoardHighlights.

(** * Return values, undo on an empty history, and New Game *)
Section ShellFixedPoints.
Context {E : RulesEngine}.

Lemma flag_current_step (pg : BoardApp.Page) (e : BoardApp.Event) :
  pos_isCheckmate start_position = false ->
  pos_isDraw start_position = false ->
  ShellReturns.flag_current (BoardApp.app pg) ->
  ShellReturns.flag_current (BoardApp.app (BoardApp.step pg e)).
Proof.
  unfold ShellReturns.flag_current. intros Hm Hd H.
  destruct e as [sq| |]; simpl.
  - unfold BoardApp.clickSquare.
    destruct (ChessBoard.handleSquareClick _ _ sq) as [bd [move|]]; simpl;
      [|assumption].
    unfold BoardApp.makeMove.
    destruct (game_move (BoardApp.game (BoardApp.app pg)) move) as [[g' r]|];
      [|assumption].
    rewrite updateStatus_game, updateStatus_gameEnded. simpl.
    unfold game_isCheckmate, game_isDraw, fen. simpl.
    intros Hx. rewrite Hx. reflexivity.
  - unfold BoardApp.clickUndo. destruct (BoardApp.undoDisabled _); simpl;
      [assumption|].
    unfold BoardApp.undoMove.
    rewrite updateStatus_game, updateStatus_gameEnded. simpl.
    unfold game_isCheckmate, game_isDraw, fen. simpl.
    intros Hx. rewrite Hx. reflexivity.
  - unfold game_isCheckmate, game_isDraw. simpl. rewrite Hm, Hd. discriminate.
Qed.

(** On a state whose status line and flag are up to date,
    [updateStatus] writes what is there already. *)
Lemma updateStatus_fixed (sh : BoardApp.State) :
  Measures.status_current sh ->
  ShellReturns.flag_current sh ->
  BoardApp.updateStatus (BoardApp.game sh) sh = sh.
Proof.
  unfold Measures.status_current, ShellReturns.flag_current.
  destruct sh as [g h s ge]. unfold BoardApp.updateStatus. simpl.
  destruct (game_isCheckmate g); simpl.
  { intros Hs Hf. now rewrite <- Hs, (Hf eq_refl). }
  destruct (game_isDraw g); simpl.
  { intros Hs Hf. now rewrite <- Hs, (Hf eq_refl). }
  intros Hs _. now rewrite <- Hs.
Qed.

Lemma undoMove_fixed (sh : BoardApp.State) :
  history (BoardApp.game sh) = [] ->
  BoardApp.moveHistory sh = [] ->
  Measures.status_current sh ->
  ShellReturns.flag_current sh ->
  BoardApp.undoMove sh = sh.
Proof.
  intros Hh Hm Hs Hf. unfold BoardApp.undoMove.
  rewrite (game_undo_fresh _ Hh), (Chess_of_fen_fresh _ Hh), Hm.
  transitivity (BoardApp.updateStatus (BoardApp.game sh) sh);
    [|now apply updateStatus_fixed].
  f_equal. destruct sh as [g h s ge]. simpl in *. now subst h.
Qed.

(** C5, as amended: with an empty history the undo button is disabled,
    so [undoMove] is not run.  [undoMove] itself has no guard and
    returns no value; run on an empty history in a page the user can
    reach, it leaves the game, the history and the last move as they
    are, the board's selection is out of its reach, and if the initial
    position is White's to move and neither mate, draw nor check it
    leaves the whole state of the shell as it is. *)
Theorem undo_on_empty_history (es : list BoardApp.Event) :
  let pg := BoardApp.run es in
  BoardApp.moveHistory (BoardApp.app pg) = [] ->
  BoardApp.undoDisabled (BoardApp.app pg) = true
  /\ ShellReturns.undoMove_returns (BoardApp.app pg)
     = ShellReturns.ReturnedUndefined
  /\ BoardApp.game (BoardApp.undoMove (BoardApp.app pg))
     = BoardApp.game (BoardApp.app pg)
  /\ BoardApp.moveHistory (BoardApp.undoMove (BoardApp.app pg))
     = BoardApp.moveHistory (BoardApp.app pg)
  /\ BoardApp.lastMove (BoardApp.undoMove (BoardApp.app pg))
     = BoardApp.lastMove (BoardApp.app pg)
  /\ BoardApp.board (fst (BoardApp.clickUndo pg)) = BoardApp.board pg
  /\ (pos_turn start_position = White ->
      pos_isCheckmate start_position = false ->
      pos_isDraw start_position = false ->
      pos_inCheck start_position = false ->
      BoardApp.undoMove (BoardApp.app pg) = BoardApp.app pg).
Proof.
  cbv zeta. intros Hm.
  assert (Hh : BoardApp.moveHistory (BoardApp.undoMove (BoardApp.app (BoardApp.run es)))
               = BoardApp.moveHistory (BoardApp.app (BoardApp.run es)))
    by now rewrite undoMove_moveHistory, Hm.
  split; [unfold BoardApp.undoDisabled; now rewrite Hm|].
  split; [reflexivity|].
  split; [exact (undoMove_fresh _ (run_fresh es))|].
  split; [exact Hh|].
  split; [unfold BoardApp.lastMove; now rewrite Hh|].
  split.
  { unfold BoardApp.clickUndo. now destruct (BoardApp.undoDisabled _). }
  intros Ht Hmate Hdraw Hcheck.
  apply undoMove_fixed; [apply run_fresh | exact Hm | |].
  - assert (H0 : Measures.status_current BoardApp.initial).
    { unfold Measures.status_current, BoardApp.updateStatus, game_isCheckmate,
        game_isDraw, game_inCheck, game_turn. simpl.
      now rewrite Ht, Hmate, Hdraw, Hcheck. }
    clear Hm Hh. unfold BoardApp.run.
    induction es as [|e es IH] using rev_ind; simpl; [exact H0|].
    rewrite fold_left_app. simpl. now apply status_current_step.
  - clear Hm Hh. unfold BoardApp.run.
    induction es as [|e es IH] using rev_ind; simpl.
    + unfold ShellReturns.flag_current, game_isCheckmate, game_isDraw. simpl.
      rewrite Hmate, Hdraw. discriminate.
    + rewrite fold_left_app. simpl. now apply flag_current_step.
Qed.
End ShellFixedPoints.

Section ReturnsOnTheBoard.
Local Open Scope string_scope.

(** After 1. e4 and undo the history is empty (and the position is
    still the one after 1. e4): the button is disabled, and [undoMove]
    would return nothing and change nothing. *)
Lemma undo_on_empty_history_witness :
  let pg := BoardApp.run (E := Rules.engine)
              [BoardApp.Click "e2"; BoardApp.Click "e4"; BoardApp.Undo] in
  BoardApp.moveHistory (BoardApp.app pg) = []
  /\ game_turn (BoardApp.game (BoardApp.app pg)) = Black
  /\ BoardApp.undoDisabled (BoardApp.app pg) = true
  /\ ShellReturns.undoMove_returns (BoardApp.app pg)
     = ShellReturns.ReturnedUndefined
  /\ BoardApp.undoMove (BoardApp.app pg) = BoardApp.app pg.
Proof.
  cbv zeta.
  assert (A1 : BoardApp.moveHistory
                 (BoardApp.app
                    (BoardApp.run (E := Rules.engine)
                       [BoardApp.Click "e2"; BoardApp.Click "e4"; BoardApp.Undo]))
               = []) by (vm_compute; reflexivity).
  pose proof (undo_on_empty_history
                (E := Rules.engine)
                [BoardApp.Click "e2"; BoardApp.Click "e4"; BoardApp.Undo]) as H.
  cbv zeta in H. destruct (H A1) as (H1 & H2 & _ & _ & _ & _ & H7).
  split; [exact A1|]. split; [vm_compute; reflexivity|].
  split; [exact H1|]. split; [exact H2|].
  apply H7; vm_compute; reflexivity.
Defined.

(** C5, counterexample: at the start the history is empty, and a call
    of [undoMove] returns no value; it does not return [false]. *)
Lemma undo_returns_no_boolean :
  BoardApp.moveHistory (BoardApp.app (Games.page_after [])) = []
  /\ ShellReturns.undoMove_returns (BoardApp.app (Games.page_after []))
     = ShellReturns.ReturnedUndefined
  /\ ShellReturns.undoMove_returns (BoardApp.app (Games.page_after []))
     <> ShellReturns.ReturnedBool false
  /\ ShellReturns.undoMove_returns (BoardApp.app (Games.page_after []))
     = ShellReturns.undoMove_returns
         (BoardApp.app (Games.page_after ["e2"; "e4"])).
Proof.
  split; [reflexivity|]. split; [reflexivity|].
  split; [discriminate | reflexivity].
Qed.

(** C2, counterexample: at the start e2-e5 is rejected and e2-e4 is
    accepted, and the shell's [makeMove] returns the same for both: no
    value, hence not a failure value. *)
Lemma shell_makeMove_returns_no_failure_value :
  let sh := BoardApp.app (Games.page_after []) in
  pos_move (position (BoardApp.game sh)) (Games.request "e2" "e5") = None
  /\ pos_move (position (BoardApp.game sh)) (Games.request "e2" "e4") <> None
  /\ ShellReturns.makeMove_returns sh (Games.request "e2" "e5")
     = ShellReturns.ReturnedUndefined
  /\ ShellReturns.makeMove_returns sh (Games.request "e2" "e5")
     <> ShellReturns.ReturnedBool false
  /\ ShellReturns.makeMove_returns sh (Games.request "e2" "e5")
     = ShellReturns.makeMove_returns sh (Games.request "e2" "e4").
Proof.
  cbv zeta.
  split; [vm_compute; reflexivity|].
  split; [vm_compute; discriminate|].
  split; [vm_compute; reflexivity|].
  split; [vm_compute; discriminate | vm_compute; reflexivity].
Qed.

(** C9: the invariant holds in [App.tsx] after any events, "New Game"
    included, and in the board application as long as "New Game" is
    not pressed; but the shell's [resetGame] cannot clear the board
    component's selection, as [App.tsx]'s does.  After 1. e4, a click
    on e7 and "New Game", the game is the initial one with White to
    move, while Black's pawn on e7 is still selected and its hints e6
    and e5 are still shown. *)
Theorem selection_outlives_new_game :
  (forall (E : RulesEngine) (es : list StandaloneApp.Event) (s : Square),
      StandaloneApp.selectedSquare (StandaloneApp.run es) = Some s ->
      friendly (game_get (StandaloneApp.game (StandaloneApp.run es)) s)
               (StandaloneApp.turn (StandaloneApp.run es)) = true)
  /\ (forall (E : RulesEngine) (es : list BoardApp.Event) (s : Square),
         forallb BoardApp.keeps_game es = true ->
         ChessBoard.selectedSquare (BoardApp.board (BoardApp.run es)) = Some s ->
         friendly (game_get (BoardApp.game (BoardApp.app (BoardApp.run es))) s)
                  (game_turn (BoardApp.game (BoardApp.app (BoardApp.run es))))
         = true
         /\ ChessBoard.hintSquares (BoardApp.board (BoardApp.run es))
            = destinations (BoardApp.game (BoardApp.app (BoardApp.run es))) s)
  /\ let pg := BoardApp.run (E := Rules.engine)
                 [BoardApp.Click "e2"; BoardApp.Click "e4";
                  BoardApp.Click "e7"; BoardApp.NewGame] in
     let st := StandaloneApp.run (E := Rules.engine)
                 [StandaloneApp.Click "e2"; StandaloneApp.Click "e4";
                  StandaloneApp.Click "e7"; StandaloneApp.NewGame] in
     fen (BoardApp.game (BoardApp.app pg)) = Rules.start
     /\ game_turn (BoardApp.game (BoardApp.app pg)) = White
     /\ game_get (BoardApp.game (BoardApp.app pg)) "e7"
        = Some {| piece_type := Pawn; piece_color := Black |}
     /\ ChessBoard.selectedSquare (BoardApp.board pg) = Some "e7"
     /\ ChessBoard.hintSquares (BoardApp.board pg) = ["e6"; "e5"]
     /\ destinations (BoardApp.game (BoardApp.app pg)) "e7" = []
     /\ friendly (game_get (BoardApp.game (BoardApp.app pg)) "e7")
                 (game_turn (BoardApp.game (BoardApp.app pg))) = false
     /\ StandaloneApp.selectedSquare st = None.
Proof.
  split; [|split].
  - intros E es s. destruct (standalone_inv_run es) as (_ & _ & H). apply H.
  - intros E es s Hk Hsel. destruct (page_inv_run es Hk) as (_ & H).
    now rewrite Hsel in H.
  - cbv zeta. do 7 (split; [vm_compute; reflexivity|]). vm_compute. reflexivity.
Qed.
End ReturnsOnTheBoard.
